(** * tdex-daemon: the application-layer managers

    A shallow embedding of [internal/core/application/types.go]:
    the transaction manager ([ExtractUnspents], [ExtractBlindingData])
    and the trade manager ([FillProposal]).

    Go values are modelled as follows.
    - [[]byte] is [list byte]; a nil slice and an empty slice are both [[]].
    - [uint32] and [uint64] are [Z]; the one conversion the code performs
      ([uint32(i)]) has its wrap-around written out.
    - [map[string]T] is [gmap string T]; a [map[int]T] keyed by the
      positions of a slice is [gmap nat T]; a map that may be nil is an
      [option] of it.
    - a call that can end in a run-time panic returns an [outcome]. *)

From Stdlib Require Import ZArith Lia.
From Stdlib.Strings Require Import Ascii String Byte.
From stdpp Require Import gmap strings list fin_maps sorting.

Local Open Scope Z_scope.

#[export] Instance byte_eq_dec : EqDecision byte := Byte.byte_eq_dec.

(** ** Outcomes of a Go call *)

(** A Go call either returns its results or unwinds with a run-time panic. *)
Inductive outcome (A : Type) : Type :=
| Returns (a : A)
| Panics (msg : string).
Arguments Returns {A} a.
Arguments Panics {A} msg.

#[export] Instance outcome_ret : MRet outcome := fun _ a => Returns a.
#[export] Instance outcome_bind : MBind outcome := fun _ _ f m =>
  match m with
  | Returns a => f a
  | Panics msg => Panics msg
  end.

(** A Go [(value, error)] pair of an external call: exactly one side is set. *)
Inductive result (A : Type) : Type :=
| Ok (a : A)
| Err (e : string).
Arguments Ok {A} a.
Arguments Err {A} e.

(** ** encoding/hex *)
Module hex.

Definition hextable : list ascii :=
  ["0"; "1"; "2"; "3"; "4"; "5"; "6"; "7";
   "8"; "9"; "a"; "b"; "c"; "d"; "e"; "f"]%char.

Definition digit (n : nat) : ascii := nth n hextable "0"%char.

(** [hex.EncodeToString]: two lower-case digits per byte, high nibble first. *)
Fixpoint EncodeToString (src : list byte) : string :=
  match src with
  | [] => EmptyString
  | b :: rest =>
      let v := Byte.to_nat b in
      String (digit (v / 16)%nat)
        (String (digit (v mod 16)%nat) (EncodeToString rest))
  end.

End hex.

(** ** go-elements/transaction: the fields the managers read *)
Module transaction.

Record TxInput := {
  Hash : list byte;
  Index : Z;                      (* uint32 *)
  Sequence : Z;
  Script : list byte;
  Witness : list (list byte)      (* TxWitness, [][]byte *)
}.

Record TxOutput := {
  Asset : list byte;
  Value : list byte;
  OutScript : list byte;
  Nonce : list byte;
  RangeProof : list byte;
  SurjectionProof : list byte
}.

Record Transaction := {
  Version : Z;
  Locktime : Z;
  Inputs : list TxInput;
  Outputs : list TxOutput
}.

End transaction.

(** ** pkg/transactionutil *)
Module transactionutil.

Record UnblindedResult := {
  AssetHash : string;
  Value : Z;                      (* uint64 *)
  AssetBlinder : list byte;
  ValueBlinder : list byte
}.

End transactionutil.

(** ** internal/core/domain: the records the managers build *)
Module domain.

Record AddressInfo := {
  AccountIndex : Z;
  Address : string;
  BlindingKey : list byte;
  DerivationPath : string;
  Script : string
}.

Record UnspentKey := {
  KeyTxID : string;
  KeyVOut : Z                     (* uint32 *)
}.

(** The fields set by the composite literal in [ExtractUnspents]; the
    fields the literal leaves out keep Go's zero value and play no role. *)
Record Unspent := {
  TxID : string;
  VOut : Z;                       (* uint32 *)
  Value : Z;                      (* uint64 *)
  AssetHash : string;
  ValueCommitment : string;
  AssetCommitment : string;
  ValueBlinder : list byte;
  AssetBlinder : list byte;
  ScriptPubKey : list byte;
  Nonce : list byte;
  RangeProof : list byte;
  SurjectionProof : list byte;
  UnspentAddress : string;        (* the field [Address] of [Unspent] *)
  Confirmed : bool
}.

End domain.

(** [make([]byte, n)]: a slice of [n] zero bytes. *)
Definition make_bytes (n : nat) : list byte := replicate n x00.

(** [uint32(i)] for a slice index [i]. *)
Definition uint32_of_index (i : nat) : Z := Z.of_nat i mod 2 ^ 32.

(** ** transactionManager.ExtractUnspents *)

(** What a call returns: the two slices and the error ([None] is a nil
    error). *)
Definition extracted : Type :=
  list domain.Unspent * list domain.UnspentKey * option string.

Section ExtractUnspents.

(** The collaborators from outside this file. [PublicKey] is
    [btcec.PublicKey], [Network] is [network.Network]. *)
Variables PublicKey Network : Type.

(** [transaction.NewTxFromHex]. *)
Variable NewTxFromHex : string -> result transaction.Transaction.
(** [tx.TxHash().String()]. *)
Variable TxHash : transaction.Transaction -> string.
(** [btcec.ParsePubKey(_, btcec.S256())]; the caller drops the error, so
    only the pointer is kept: [None] is the nil pointer of a failed
    parse. *)
Variable ParsePubKey : list byte -> option PublicKey.
(** [payment.FromPublicKey(pubkey, network, nil)], reduced to the
    [WitnessScript] of the payment it returns. What it does with a nil
    public key is the library's business: the call may panic. *)
Variable FromPublicKey : option PublicKey -> Network -> outcome (list byte).
(** [bufferutil.TxIDFromBytes] and [bufferutil.CommitmentFromBytes]. *)
Variable TxIDFromBytes : list byte -> string.
Variable CommitmentFromBytes : list byte -> string.
(** [transactionutil.UnblindOutput]: the result and the [ok] flag. *)
Variable UnblindOutput :
  transaction.TxOutput -> list byte -> option transactionutil.UnblindedResult.

Variable infoByScript : gmap string domain.AddressInfo.
Variable network : Network.

(** One iteration of the loop over [tx.Inputs]; [unspentsToSpend] is the
    slice built so far. The guard is [len(in.Witness) > 0] and the body
    indexes [in.Witness[1]]. *)
Definition scanInput (unspentsToSpend : list domain.UnspentKey)
    (input : transaction.TxInput) : outcome (list domain.UnspentKey) :=
  if (0 <? length (transaction.Witness input))%nat then
    match transaction.Witness input !! 1%nat with
    | None => Panics "index out of range [1] with length 1"
    | Some w1 =>
        let pubkey := ParsePubKey w1 in
        witnessScript ← FromPublicKey pubkey network;
        let script := hex.EncodeToString witnessScript in
        match infoByScript !! script with
        | Some _ =>
            Returns (unspentsToSpend ++
              [ {| domain.KeyTxID := TxIDFromBytes (transaction.Hash input);
                   domain.KeyVOut := transaction.Index input |} ])
        | None => Returns unspentsToSpend
        end
    end
  else Returns unspentsToSpend.

Fixpoint scanInputs (unspentsToSpend : list domain.UnspentKey)
    (inputs : list transaction.TxInput) : outcome (list domain.UnspentKey) :=
  match inputs with
  | [] => Returns unspentsToSpend
  | input :: rest =>
      acc ← scanInput unspentsToSpend input;
      scanInputs acc rest
  end.

(** The [domain.Unspent] literal of the loop over [tx.Outputs]. *)
Definition newUnspent (tx : transaction.Transaction) (i : nat)
    (out : transaction.TxOutput) (info : domain.AddressInfo)
    (unconfidential : transactionutil.UnblindedResult) : domain.Unspent :=
  {| domain.TxID := TxHash tx;
     domain.VOut := uint32_of_index i;
     domain.Value := transactionutil.Value unconfidential;
     domain.AssetHash := transactionutil.AssetHash unconfidential;
     domain.ValueCommitment := CommitmentFromBytes (transaction.Value out);
     domain.AssetCommitment := CommitmentFromBytes (transaction.Asset out);
     domain.ValueBlinder := transactionutil.ValueBlinder unconfidential;
     domain.AssetBlinder := transactionutil.AssetBlinder unconfidential;
     domain.ScriptPubKey := transaction.OutScript out;
     domain.Nonce := transaction.Nonce out;
     domain.RangeProof := make_bytes 1;
     domain.SurjectionProof := make_bytes 1;
     domain.UnspentAddress := domain.Address info;
     domain.Confirmed := false |}.

(** The loop over [tx.Outputs] from index [i] on; [None] is the early
    [return nil, nil, fmt.Errorf(...)]. *)
Fixpoint scanOutputs (tx : transaction.Transaction) (i : nat)
    (unspentsToAdd : list domain.Unspent)
    (outputs : list transaction.TxOutput) : option (list domain.Unspent) :=
  match outputs with
  | [] => Some unspentsToAdd
  | out :: rest =>
      let script := hex.EncodeToString (transaction.OutScript out) in
      match infoByScript !! script with
      | Some info =>
          match UnblindOutput out (domain.BlindingKey info) with
          | None => None
          | Some unconfidential =>
              scanOutputs tx (S i)
                (unspentsToAdd ++ [newUnspent tx i out info unconfidential])
                rest
          end
      | None => scanOutputs tx (S i) unspentsToAdd rest
      end
  end.

Definition ExtractUnspents (txHex : string) : outcome extracted :=
  match NewTxFromHex txHex with
  | Err err => Returns ([], [], Some err)
  | Ok tx =>
      unspentsToSpend ← scanInputs [] (transaction.Inputs tx);
      match scanOutputs tx 0 [] (transaction.Outputs tx) with
      | None => Returns ([], [], Some "unable to unblind output")
      | Some unspentsToAdd => Returns (unspentsToAdd, unspentsToSpend, None)
      end
  end.

(** An output that belongs to the wallet: its script has an entry. *)
Definition owned (out : transaction.TxOutput) (info : domain.AddressInfo) : Prop :=
  infoByScript !! hex.EncodeToString (transaction.OutScript out) = Some info.

End ExtractUnspents.


(** ** transactionManager.ExtractBlindingData *)

(** [pkg/wallet]. *)
Module wallet.

Record BlindingData := {
  Asset : string;
  Amount : Z;                     (* uint64 *)
  AssetBlinder : list byte;
  AmountBlinder : list byte
}.

(** A partially-signed transaction as the extractor reads it: every input
    together with the confidential output it spends, and the outputs. *)
Record Pset := {
  PsetInputs : list (transaction.TxInput * transaction.TxOutput);
  PsetOutputs : list transaction.TxOutput
}.

(** What [ExtractBlindingDataFromTx] returns: two maps that may be nil and
    the error. *)
Definition blindingMaps : Type :=
  option (gmap nat BlindingData) * option (gmap nat BlindingData) * option string.

Section ExtractBlindingDataFromTx.

(** [pset.NewPsetFromBase64]. *)
Variable NewPsetFromBase64 : string -> result Pset.
(** The identifier under which the key of an input is supplied (its
    outpoint). *)
Variable OutpointKey : transaction.TxInput -> string.
Variable UnblindOutput :
  transaction.TxOutput -> list byte -> option transactionutil.UnblindedResult.

Definition toBlindingData (r : transactionutil.UnblindedResult) : BlindingData :=
  {| Asset := transactionutil.AssetHash r;
     Amount := transactionutil.Value r;
     AssetBlinder := transactionutil.AssetBlinder r;
     AmountBlinder := transactionutil.ValueBlinder r |}.

(** Modelled from the spec: the per-index walk of
    [wallet.ExtractBlindingDataFromTx], which is not part of the sources at
    hand. For every index from [i] on whose identifier has a key in [keys],
    unblinding is attempted; an index without a key is skipped and leaves no
    entry. An attempt that fails makes the walk fail ([None]). *)
Fixpoint unblindSupplied {A : Type} (ident : A -> string)
    (confidential : A -> transaction.TxOutput)
    (keys : gmap string (list byte)) (i : nat) (items : list A)
    (data : gmap nat BlindingData) : option (gmap nat BlindingData) :=
  match items with
  | [] => Some data
  | item :: rest =>
      match keys !! ident item with
      | None => unblindSupplied ident confidential keys (S i) rest data
      | Some key =>
          match UnblindOutput (confidential item) key with
          | None => None
          | Some r =>
              unblindSupplied ident confidential keys (S i) rest
                (<[i := toBlindingData r]> data)
          end
      end
  end.

Definition outputIdent (out : transaction.TxOutput) : string :=
  hex.EncodeToString (transaction.OutScript out).

(** Modelled from the spec: [wallet.ExtractBlindingDataFromTx], which is not
    part of the sources at hand. If the transaction cannot be parsed the
    call fails at once; otherwise the inputs are walked with the input
    keys and the outputs with the output keys. *)
Definition ExtractBlindingDataFromTx (psetBase64 : string)
    (inBlindingKeys outBlindingKeys : gmap string (list byte)) : blindingMaps :=
  match NewPsetFromBase64 psetBase64 with
  | Err err => (None, None, Some err)
  | Ok ptx =>
      match unblindSupplied (fun p => OutpointKey p.1) snd inBlindingKeys 0
              (PsetInputs ptx) ∅ with
      | None => (None, None, Some "unable to unblind input")
      | Some inData =>
          match unblindSupplied outputIdent id outBlindingKeys 0
                  (PsetOutputs ptx) ∅ with
          | None => (None, None, Some "unable to unblind output")
          | Some outData => (Some inData, Some outData, None)
          end
      end
  end.

End ExtractBlindingDataFromTx.

End wallet.

(** [type BlindingData wallet.BlindingData]: the same struct under a new
    name, and the conversion [BlindingData(d)] keeps every field. *)
Definition BlindingData : Type := wallet.BlindingData.
Definition toBlindingData (d : wallet.BlindingData) : BlindingData := d.

(** [make(map[int]BlindingData)] followed by the [range] loop that stores
    [BlindingData(d)] under every key of [m]. *)
Definition convertBlindingData (m : gmap nat wallet.BlindingData)
    : gmap nat BlindingData :=
  map_fold (fun i d acc => <[i := toBlindingData d]> acc) ∅ m.

Section ExtractBlindingData.

Variable NewPsetFromBase64 : string -> result wallet.Pset.
Variable OutpointKey : transaction.TxInput -> string.
Variable UnblindOutput :
  transaction.TxOutput -> list byte -> option transactionutil.UnblindedResult.

(** The named results [inBlindingData], [outBlindingData] start out nil and
    are returned as they are when [err] is set. *)
Definition ExtractBlindingData (psetBase64 : string)
    (inBlindingKeys outBlindingKeys : gmap string (list byte))
    : wallet.blindingMaps :=
  let '(in_, out, err) :=
    wallet.ExtractBlindingDataFromTx NewPsetFromBase64 OutpointKey
      UnblindOutput psetBase64 inBlindingKeys outBlindingKeys in
  match err with
  | Some e => (None, None, Some e)
  | None =>
      let inBlindingData :=
        match in_ with
        | Some m => Some (convertBlindingData m)
        | None => None
        end in
      let outBlindingData :=
        match out with
        | Some m => Some (convertBlindingData m)
        | None => None
        end in
      (inBlindingData, outBlindingData, None)
  end.

End ExtractBlindingData.


(** ** tradeManager.FillProposal *)

(** Modelled from the spec: the coins of [pkg/explorer], whose [Utxo]
    interface is declared outside [types.go]. A coin is an owned unspent
    output with its identity key, its script and its unblinded value and
    asset. *)
Module explorer.

Record Utxo := {
  Hash : string;
  Index : Z;                      (* uint32 *)
  Value : Z;                      (* uint64 *)
  Asset : string;
  Script : list byte
}.

End explorer.

(** [go-elements/network]: the name of the network and its native asset,
    in which the network fee is paid. *)
Module network.

Record Network := {
  Name : string;
  AssetID : string
}.

End network.

(** Modelled from the spec: an input or output of a transaction seen
    through its unblinded value, the view in which conservation is stated. *)
Record Leg := {
  LegAsset : string;
  LegValue : Z;
  LegScript : string
}.

Record UnblindedTx := {
  TxIns : list Leg;
  TxOuts : list Leg
}.

(** Modelled from the spec: [domain.SwapRequest], whose declaration is not
    part of the sources at hand. It declares the two legs of the trade, the
    asset and amount the proposer sends (P) and the asset and amount
    requested (R), and carries the proposer's half of the transaction. *)
Record SwapRequest := {
  AssetP : string;
  AmountP : Z;
  AssetR : string;
  AmountR : Z;
  Transaction : UnblindedTx
}.

Record FillProposalOpts := {
  Mnemonic : list string;
  Request : SwapRequest;          (* the field [SwapRequest] *)
  MarketUtxos : list explorer.Utxo;
  FeeUtxos : list explorer.Utxo;
  MarketInfo : list domain.AddressInfo;
  FeeInfo : list domain.AddressInfo;
  OutputInfo : domain.AddressInfo;
  ChangeInfo : domain.AddressInfo;
  FeeChangeInfo : domain.AddressInfo;
  Network : option network.Network  (* a pointer: [None] is nil *)
}.

Record FillProposalResult := {
  PsetBase64 : string;
  SelectedUnspents : list explorer.Utxo;
  InputBlindingKeys : gmap string (list byte);
  OutputBlindingKeys : gmap string (list byte)
}.

(** Modelled from the spec: the error kinds of the builder. Insufficient
    funds of the trade leg and of the fee leg are distinct kinds, and so
    are a malformed configuration, a conservation violation and a failure
    to construct the blinding. *)
Inductive FillError : Type :=
| InsufficientFundsError
| InsufficientFeeFundsError
| ConfigurationError
| ConservationViolationError
| BlindingError.

Inductive filled : Type :=
| Filled (r : FillProposalResult)
| Failed (e : FillError).

(** *** Coin selection *)

(** A subset of a list of coins is a mask over it: [true] selects the coin
    at that position. *)
Fixpoint pick {A : Type} (mask : list bool) (coins : list A) : list A :=
  match mask, coins with
  | b :: mask', c :: coins' =>
      if b then c :: pick mask' coins' else pick mask' coins'
  | _, _ => []
  end.

(** Every mask of length [n]; a mask that selects an earlier coin comes
    before one that does not. *)
Fixpoint masks (n : nat) : list (list bool) :=
  match n with
  | O => [[]]
  | S n' => (cons true <$> masks n') ++ (cons false <$> masks n')
  end.

(** Insertion order on masks of one length: at the first position where
    they differ, the earlier mask is the one that selects the coin. *)
Fixpoint earlier (m1 m2 : list bool) : bool :=
  match m1, m2 with
  | b1 :: r1, b2 :: r2 => if Bool.eqb b1 b2 then earlier r1 r2 else b1
  | _, _ => false
  end.

Definition sumValues (coins : list explorer.Utxo) : Z :=
  foldr (fun u s => explorer.Value u + s) 0 coins.

Definition selectedSum (coins : list explorer.Utxo) (mask : list bool) : Z :=
  sumValues (pick mask coins).

Definition selectedCount (coins : list explorer.Utxo) (mask : list bool) : nat :=
  length (pick mask coins).

Definition leftover (target : Z) (coins : list explorer.Utxo)
    (mask : list bool) : Z :=
  selectedSum coins mask - target.

(** Modelled from the spec: a subset covers the target when its value sum
    is at least the requested amount. *)
Definition covers (target : Z) (coins : list explorer.Utxo)
    (mask : list bool) : bool :=
  target <=? selectedSum coins mask.

(** Modelled from the spec: [m] beats [b] when it leaves less leftover, or
    the same leftover with fewer inputs. Both cover the same target, so
    leftovers compare as the sums do. *)
Definition beats (coins : list explorer.Utxo) (m b : list bool) : bool :=
  (selectedSum coins m <? selectedSum coins b)
  || ((selectedSum coins m =? selectedSum coins b)
      && (selectedCount coins m <? selectedCount coins b)%nat).

(** One step of the selection: a covering mask replaces the best one so
    far only when it beats it, so that among equals the first one stays. *)
Definition consider (target : Z) (coins : list explorer.Utxo)
    (best : option (list bool)) (m : list bool) : option (list bool) :=
  if covers target coins m then
    match best with
    | None => Some m
    | Some b => if beats coins m b then Some m else Some b
    end
  else best.

(** Modelled from the spec: the coin selection of [fillProposal], which is
    not part of the sources at hand. It selects a subset whose value sum is
    at least the target, minimizing leftover, ties broken by fewest inputs
    and then by insertion order; [None] when no subset covers. *)
Definition selectCoins (target : Z) (coins : list explorer.Utxo)
    : option (list bool) :=
  foldl (consider target coins) None (masks (length coins)).

(** The coins of one asset, in the order of the list. *)
Definition ofAsset (asset : string) (utxos : list explorer.Utxo)
    : list explorer.Utxo :=
  filter (fun u => explorer.Asset u = asset) utxos.

(** *** Conservation *)

(** The sum of the unblinded values of one asset. *)
Definition assetSum (asset : string) (legs : list Leg) : Z :=
  foldr (fun l s => if decide (LegAsset l = asset) then LegValue l + s else s)
    0 legs.

(** Modelled from the spec: the conservation test of step 5. For each asset
    present in the transaction the input values and the output values have
    the same sum. *)
Definition conserved (tx : UnblindedTx) : bool :=
  forallb (fun a => assetSum a (TxIns tx) =? assetSum a (TxOuts tx))
    (LegAsset <$> TxIns tx ++ TxOuts tx).

(** The proposer's half of the transaction delivers leg P and takes leg R:
    for every asset, what it brings in and the amount requested balance
    what it pays out and the amount proposed. *)
Definition balancedRequest (req : SwapRequest) : Prop :=
  forall asset,
    assetSum asset (TxIns (Transaction req))
    + (if decide (AssetR req = asset) then AmountR req else 0)
    = assetSum asset (TxOuts (Transaction req))
      + (if decide (AssetP req = asset) then AmountP req else 0).

(** *** The builder *)

Definition legOfUtxo (u : explorer.Utxo) : Leg :=
  {| LegAsset := explorer.Asset u;
     LegValue := explorer.Value u;
     LegScript := hex.EncodeToString (explorer.Script u) |}.

Definition legTo (info : domain.AddressInfo) (asset : string) (amount : Z) : Leg :=
  {| LegAsset := asset; LegValue := amount; LegScript := domain.Script info |}.

(** A change output is created only for a nonzero change. *)
Definition changeTo (info : domain.AddressInfo) (asset : string) (amount : Z)
    : list Leg :=
  if amount =? 0 then [] else [legTo info asset amount].

(** The network fee is an explicit output with an empty script. *)
Definition feeOutput (asset : string) (amount : Z) : Leg :=
  {| LegAsset := asset; LegValue := amount; LegScript := "" |}.

Definition blindingKeyOf (infos : list domain.AddressInfo) (u : explorer.Utxo)
    : option (list byte) :=
  domain.BlindingKey <$>
    List.find (fun info =>
      bool_decide (domain.Script info = hex.EncodeToString (explorer.Script u)))
      infos.

Definition outputKeys (infos : list domain.AddressInfo)
    : gmap string (list byte) :=
  foldr (fun info m => <[domain.Script info := domain.BlindingKey info]> m)
    ∅ infos.

Section FillProposal.

(** The fee amount comes from the pricing collaborator as a fixed number. *)
Variable FeeAmount : Z.
(** Whether an address is well formed for a network. *)
Variable ValidAddress : network.Network -> domain.AddressInfo -> bool.
(** Blinding and serialisation of the assembled transaction under the two
    key maps; [None] when a commitment or proof cannot be constructed. *)
Variable BlindPset :
  UnblindedTx -> gmap string (list byte) -> gmap string (list byte) ->
  option string.
(** The identifier of the outpoint of a coin. *)
Variable OutpointKey : explorer.Utxo -> string.

Definition inputKeys (infos : list domain.AddressInfo)
    (selected : list explorer.Utxo) (m : gmap string (list byte))
    : gmap string (list byte) :=
  foldr (fun u acc =>
           match blindingKeyOf infos u with
           | Some key => <[OutpointKey u := key]> acc
           | None => acc
           end) m selected.

(** Modelled from the spec: the transaction of step 5, made of the
    proposer's half, every selected input and every constructed output:
    the receiving output of leg P, the change of the traded asset, the fee
    change and the fee. *)
Definition assemble (req : SwapRequest) (opts : FillProposalOpts)
    (feeAsset : string) (selectedMarket selectedFee : list explorer.Utxo)
    : UnblindedTx :=
  let change := sumValues selectedMarket - AmountR req in
  let feeChange := sumValues selectedFee - FeeAmount in
  {| TxIns := TxIns (Transaction req)
              ++ (legOfUtxo <$> selectedMarket ++ selectedFee);
     TxOuts := TxOuts (Transaction req)
               ++ [legTo (OutputInfo opts) (AssetP req) (AmountP req)]
               ++ changeTo (ChangeInfo opts) (AssetR req) change
               ++ changeTo (FeeChangeInfo opts) feeAsset feeChange
               ++ [feeOutput feeAsset FeeAmount] |}.

(** Modelled from the spec: [fillProposal], to which
    [tradeManager.FillProposal] hands its options and which is not part of
    the sources at hand. The steps are those of the builder's algorithm:
    1. coin selection among the market's coins of the requested asset;
    2. the change of the traded asset;
    3. coin selection among the fee coins of the network's asset, and the
       fee change;
    4. the receiving output for leg P;
    5. assembly, the conservation test and blinding;
    6. the result with the selected coins and the two key maps. *)
Definition fillProposal (opts : FillProposalOpts) : filled :=
  let req := Request opts in
  let marketCoins := ofAsset (AssetR req) (MarketUtxos opts) in
  match selectCoins (AmountR req) marketCoins with
  | None => Failed InsufficientFundsError
  | Some marketMask =>
      let selectedMarket := pick marketMask marketCoins in
      match Network opts with
      | None => Failed ConfigurationError
      | Some net =>
          let feeCoins := ofAsset (network.AssetID net) (FeeUtxos opts) in
          match selectCoins FeeAmount feeCoins with
          | None => Failed InsufficientFeeFundsError
          | Some feeMask =>
              let selectedFee := pick feeMask feeCoins in
              if negb (ValidAddress net (OutputInfo opts)
                       && ValidAddress net (ChangeInfo opts)
                       && ValidAddress net (FeeChangeInfo opts))
              then Failed ConfigurationError
              else
                let tx := assemble req opts (network.AssetID net)
                            selectedMarket selectedFee in
                if negb (conserved tx) then Failed ConservationViolationError
                else
                  let inKeys :=
                    inputKeys (MarketInfo opts) selectedMarket
                      (inputKeys (FeeInfo opts) selectedFee ∅) in
                  let outKeys :=
                    outputKeys [OutputInfo opts; ChangeInfo opts;
                                FeeChangeInfo opts] in
                  match BlindPset tx inKeys outKeys with
                  | None => Failed BlindingError
                  | Some psetBase64 =>
                      Filled {| PsetBase64 := psetBase64;
                                SelectedUnspents := selectedMarket ++ selectedFee;
                                InputBlindingKeys := inKeys;
                                OutputBlindingKeys := outKeys |}
                  end
          end
      end
  end.

(** [tradeManager.FillProposal]. *)
Definition FillProposal (opts : FillProposalOpts) : filled :=
  fillProposal opts.

End FillProposal.


(** ** ExtractUnspents as a run of the process *)

(** The calls above are functions of their arguments. To speak of two
    calls made one after the other, the call is also modelled as a run
    that threads the state of the process: what the collaborators keep
    between calls, the map of owned scripts (a Go map is shared with the
    caller, not copied), and the two slice variables of the call. *)

Section Process.

(** What the collaborators keep from one call to the next. *)
Variable World : Type.

Record process := {
  world : World;
  ownedScripts : gmap string domain.AddressInfo;
  unspentsToAdd : list domain.Unspent;
  unspentsToSpend : list domain.UnspentKey
}.

(** A statement: from a state, a value or a panic, and the state after. *)
Definition run (A : Type) : Type := process -> outcome A * process.

Definition ret {A : Type} (a : A) : run A := fun p => (Returns a, p).

Definition bind {A B : Type} (m : run A) (f : A -> run B) : run B :=
  fun p =>
    match m p with
    | (Returns a, p') => f a p'
    | (Panics msg, p') => (Panics msg, p')
    end.

Definition panic {A : Type} (msg : string) : run A :=
  fun p => (Panics msg, p).

(** A call to a collaborator: it reads and leaves its own state. *)
Definition call {A : Type} (c : World -> A * World) : run A :=
  fun p =>
    let '(a, w) := c (world p) in
    (Returns a,
     {| world := w;
        ownedScripts := ownedScripts p;
        unspentsToAdd := unspentsToAdd p;
        unspentsToSpend := unspentsToSpend p |}).

(** A call to a collaborator that may panic. *)
Definition callOutcome {A : Type} (c : World -> outcome A * World) : run A :=
  fun p =>
    let '(o, w) := c (world p) in
    (o,
     {| world := w;
        ownedScripts := ownedScripts p;
        unspentsToAdd := unspentsToAdd p;
        unspentsToSpend := unspentsToSpend p |}).

(** [infoByScript[script]]. *)
Definition lookupScript (script : string) : run (option domain.AddressInfo) :=
  fun p => (Returns (ownedScripts p !! script), p).

(** [unspentsToAdd = v] and [unspentsToSpend = v]. *)
Definition setToAdd (v : list domain.Unspent) : run unit :=
  fun p =>
    (Returns tt,
     {| world := world p;
        ownedScripts := ownedScripts p;
        unspentsToAdd := v;
        unspentsToSpend := unspentsToSpend p |}).

Definition setToSpend (v : list domain.UnspentKey) : run unit :=
  fun p =>
    (Returns tt,
     {| world := world p;
        ownedScripts := ownedScripts p;
        unspentsToAdd := unspentsToAdd p;
        unspentsToSpend := v |}).

Definition getToAdd : run (list domain.Unspent) :=
  fun p => (Returns (unspentsToAdd p), p).

Definition getToSpend : run (list domain.UnspentKey) :=
  fun p => (Returns (unspentsToSpend p), p).

Variables PublicKey Network : Type.

(** The collaborators, each with the state it is run in and leaves. *)
Variable NewTxFromHexIn :
  string -> World -> result transaction.Transaction * World.
Variable TxHashIn : transaction.Transaction -> World -> string * World.
Variable ParsePubKeyIn : list byte -> World -> option PublicKey * World.
Variable FromPublicKeyIn :
  option PublicKey -> Network -> World -> outcome (list byte) * World.
Variable TxIDFromBytesIn : list byte -> World -> string * World.
Variable CommitmentFromBytesIn : list byte -> World -> string * World.
Variable UnblindOutputIn :
  transaction.TxOutput -> list byte -> World ->
  option transactionutil.UnblindedResult * World.

Variable network : Network.

(** The body of the loop over [tx.Inputs]. *)
Definition scanInputIn (input : transaction.TxInput) : run unit :=
  if (0 <? length (transaction.Witness input))%nat then
    match transaction.Witness input !! 1%nat with
    | None => panic "index out of range [1] with length 1"
    | Some w1 =>
        bind (call (ParsePubKeyIn w1)) (fun pubkey =>
        bind (callOutcome (FromPublicKeyIn pubkey network))
          (fun witnessScript =>
        let script := hex.EncodeToString witnessScript in
        bind (lookupScript script) (fun entry =>
        match entry with
        | Some _ =>
            bind (call (TxIDFromBytesIn (transaction.Hash input)))
              (fun txid =>
            bind getToSpend (fun keys =>
            setToSpend
              (keys ++ [ {| domain.KeyTxID := txid;
                            domain.KeyVOut := transaction.Index input |} ])))
        | None => ret tt
        end)))
    end
  else ret tt.

Fixpoint scanInputsIn (inputs : list transaction.TxInput) : run unit :=
  match inputs with
  | [] => ret tt
  | input :: rest => bind (scanInputIn input) (fun _ => scanInputsIn rest)
  end.

(** The loop over [tx.Outputs] from index [i] on; it returns [false] at
    the early [return nil, nil, fmt.Errorf(...)]. The calls inside the
    composite literal run in the order they are written. *)
Fixpoint scanOutputsIn (tx : transaction.Transaction) (i : nat)
    (outputs : list transaction.TxOutput) : run bool :=
  match outputs with
  | [] => ret true
  | out :: rest =>
      let script := hex.EncodeToString (transaction.OutScript out) in
      bind (lookupScript script) (fun entry =>
      match entry with
      | Some info =>
          bind (call (UnblindOutputIn out (domain.BlindingKey info)))
            (fun unblinded =>
          match unblinded with
          | None => ret false
          | Some unconfidential =>
              bind (call (TxHashIn tx)) (fun txid =>
              bind (call (CommitmentFromBytesIn (transaction.Value out)))
                (fun valueCommitment =>
              bind (call (CommitmentFromBytesIn (transaction.Asset out)))
                (fun assetCommitment =>
              bind getToAdd (fun unspents =>
              bind (setToAdd
                (unspents ++
                 [ {| domain.TxID := txid;
                      domain.VOut := uint32_of_index i;
                      domain.Value := transactionutil.Value unconfidential;
                      domain.AssetHash :=
                        transactionutil.AssetHash unconfidential;
                      domain.ValueCommitment := valueCommitment;
                      domain.AssetCommitment := assetCommitment;
                      domain.ValueBlinder :=
                        transactionutil.ValueBlinder unconfidential;
                      domain.AssetBlinder :=
                        transactionutil.AssetBlinder unconfidential;
                      domain.ScriptPubKey := transaction.OutScript out;
                      domain.Nonce := transaction.Nonce out;
                      domain.RangeProof := make_bytes 1;
                      domain.SurjectionProof := make_bytes 1;
                      domain.UnspentAddress := domain.Address info;
                      domain.Confirmed := false |} ]))
                (fun _ => scanOutputsIn tx (S i) rest)))))
          end)
      | None => scanOutputsIn tx (S i) rest
      end)
  end.

(** The call. The two slice variables are set by [make(..., 0)] after the
    transaction has parsed, whatever they held before. *)
Definition ExtractUnspentsIn (txHex : string) : run extracted :=
  bind (call (NewTxFromHexIn txHex)) (fun parsed =>
  match parsed with
  | Err err => ret ([], [], Some err)
  | Ok tx =>
      bind (setToAdd []) (fun _ =>
      bind (setToSpend []) (fun _ =>
      bind (scanInputsIn (transaction.Inputs tx)) (fun _ =>
      bind (scanOutputsIn tx 0 (transaction.Outputs tx)) (fun completed =>
      if completed : bool then
        bind getToAdd (fun unspents =>
        bind getToSpend (fun keys => ret (unspents, keys, None)))
      else ret ([], [], Some "unable to unblind output")))))
  end).

(** Two calls with the same arguments, the second in the state the first
    one left. *)
Definition replay (txHex : string) (p : process)
    : (outcome extracted * outcome extracted) * process :=
  let '(first, p1) := ExtractUnspentsIn txHex p in
  let '(second, p2) := ExtractUnspentsIn txHex p1 in
  ((first, second), p2).

(** A collaborator is a function of its arguments when what it returns
    does not depend on the state it is run in. *)
Definition functionOf {A B : Type} (c : A -> World -> B * World)
    (f : A -> B) : Prop :=
  forall a w, (c a w).1 = f a.

Definition functionOf2 {A B C : Type} (c : A -> B -> World -> C * World)
    (f : A -> B -> C) : Prop :=
  forall a b w, (c a b w).1 = f a b.

End Process.

(** ** Views of a transaction, used to state what the managers return *)

Section ExtractUnspentsViews.

Variables PublicKey Network : Type.
Variable ParsePubKey : list byte -> option PublicKey.
Variable FromPublicKey : option PublicKey -> Network -> outcome (list byte).
Variable TxIDFromBytes : list byte -> string.
Variable infoByScript : gmap string domain.AddressInfo.
Variable network : Network.

(** The key under which the coin spent by an input is recorded. *)
Definition outpointOf (input : transaction.TxInput) : domain.UnspentKey :=
  {| domain.KeyTxID := TxIDFromBytes (transaction.Hash input);
     domain.KeyVOut := transaction.Index input |}.

(** The script the loop over the inputs derives from an input: the payer's
    script of the key parsed from the second element of its witness. *)
Definition derivesScript (input : transaction.TxInput) (script : list byte)
    : Prop :=
  exists w0 w1 ws,
    transaction.Witness input = w0 :: w1 :: ws /\
    FromPublicKey (ParsePubKey w1) network = Returns script.

(** An input over which the loop runs without a panic: it carries no
    witness, or a witness of two elements at least from which a script is
    derived. *)
Definition scansCleanly (input : transaction.TxInput) : Prop :=
  transaction.Witness input = [] \/ exists script, derivesScript input script.

(** An input the loop records as spending a coin of the wallet. *)
Definition spendsOwned (input : transaction.TxInput) : Prop :=
  exists script,
    derivesScript input script /\
    is_Some (infoByScript !! hex.EncodeToString script).

(** The outputs whose script has an entry, each with its position (counted
    from [i]) and its entry, in the order of the transaction. *)
Fixpoint ownedOutputs (i : nat) (outputs : list transaction.TxOutput)
    : list (nat * transaction.TxOutput * domain.AddressInfo) :=
  match outputs with
  | [] => []
  | out :: rest =>
      match infoByScript !! hex.EncodeToString (transaction.OutScript out) with
      | Some info => (i, out, info) :: ownedOutputs (S i) rest
      | None => ownedOutputs (S i) rest
      end
  end.

End ExtractUnspentsViews.

(** ** Unspents.ToUtxos *)

(** [l[i] = x] on a slice: a write past the end panics. *)
Definition store {A : Type} (l : list A) (i : nat) (x : A) : outcome (list A) :=
  if (i <? length l)%nat then Returns (<[i := x]> l)
  else Panics "index out of range".

Section ToUtxos.

(** [explorer.Utxo] is an interface; a slot of a slice of them holds a
    value or nil ([None]). [ToUtxo] is the method of [domain.Unspent]. *)
Variable Utxo : Type.
Variable ToUtxo : domain.Unspent -> Utxo.

(** The loop [for i := range u { l[i] = u[i].ToUtxo() }] from index [i] on,
    [rest] being what is left of [u]. *)
Fixpoint fillUtxos (i : nat) (rest : list domain.Unspent)
    (l : list (option Utxo)) : outcome (list (option Utxo)) :=
  match rest with
  | [] => Returns l
  | x :: rest' =>
      l' ← store l i (Some (ToUtxo x));
      fillUtxos (S i) rest' l'
  end.

(** [make([]explorer.Utxo, len(u), len(u))] is a slice of nil interfaces. *)
Definition ToUtxos (u : list domain.Unspent) : outcome (list (option Utxo)) :=
  fillUtxos 0 u (replicate (length u) None).

End ToUtxos.

(** ** ExtractBlindingData around any extractor *)

(** The body of [ExtractBlindingData] with the call into the wallet package
    taken as a parameter, so that what the wrapper itself does can be told
    apart from what the extractor does. *)
Definition ExtractBlindingDataWith
    (ExtractBlindingDataFromTx :
       string -> gmap string (list byte) -> gmap string (list byte) ->
       wallet.blindingMaps)
    (psetBase64 : string)
    (inBlindingKeys outBlindingKeys : gmap string (list byte))
    : wallet.blindingMaps :=
  let '(in_, out, err) :=
    ExtractBlindingDataFromTx psetBase64 inBlindingKeys outBlindingKeys in
  match err with
  | Some e => (None, None, Some e)
  | None =>
      let inBlindingData :=
        match in_ with
        | Some m => Some (convertBlindingData m)
        | None => None
        end in
      let outBlindingData :=
        match out with
        | Some m => Some (convertBlindingData m)
        | None => None
        end in
      (inBlindingData, outBlindingData, None)
  end.

(** The copy loop of the wrapper when [range] hands out the entries of the
    map in the order of [entries]; Go fixes no order. *)
Definition copyInOrder (entries : list (nat * wallet.BlindingData))
    : gmap nat BlindingData :=
  foldl (fun acc e => <[e.1 := toBlindingData e.2]> acc) ∅ entries.


(** ** Sample data *)

(** Stand-ins for the outside collaborators, small enough to evaluate. *)
Module sample.

Definition sig : list byte := [x30; x44].
Definition pubkey : list byte := [x02; xab; xcd].
Definition ownedScript : list byte := [x00; x14; xaa].
Definition foreignScript : list byte := [x00; x14; xbb].
Definition blindingKey : list byte := [x11; x22].

(** A public key parses when it starts with the compressed-key tags. *)
Definition ParsePubKey (b : list byte) : option (list byte) :=
  match b with
  | x02 :: _ | x03 :: _ => Some b
  | _ => None
  end.

(** The payer's script of the one key pair of the sample wallet. *)
Definition FromPublicKey (pk : option (list byte)) (_ : unit)
    : outcome (list byte) :=
  match pk with
  | Some _ => Returns ownedScript
  | None => Panics "invalid memory address or nil pointer dereference"
  end.

Definition TxIDFromBytes (b : list byte) : string :=
  hex.EncodeToString (rev b).

Definition CommitmentFromBytes (b : list byte) : string :=
  hex.EncodeToString b.

Definition TxHash (_ : transaction.Transaction) : string := "f00d".

(** An output unblinds under the key stored in its nonce. *)
Definition UnblindOutput (out : transaction.TxOutput) (key : list byte)
    : option transactionutil.UnblindedResult :=
  if bool_decide (transaction.Nonce out = key) then
    Some {| transactionutil.AssetHash := "A";
            transactionutil.Value := 100000;
            transactionutil.AssetBlinder := [x01];
            transactionutil.ValueBlinder := [x02] |}
  else None.

Definition info : domain.AddressInfo :=
  {| domain.AccountIndex := 0;
     domain.Address := "el1qqsample";
     domain.BlindingKey := blindingKey;
     domain.DerivationPath := "0'/0/0";
     domain.Script := hex.EncodeToString ownedScript |}.

Definition infoByScript : gmap string domain.AddressInfo :=
  {[ hex.EncodeToString ownedScript := info ]}.

Definition output (script nonce : list byte) : transaction.TxOutput :=
  {| transaction.Asset := [x0a];
     transaction.Value := [x08];
     transaction.OutScript := script;
     transaction.Nonce := nonce;
     transaction.RangeProof := [x60; x33];
     transaction.SurjectionProof := [x01; x00; x01] |}.

Definition input (witness : list (list byte)) : transaction.TxInput :=
  {| transaction.Hash := [x01; x02];
     transaction.Index := 1;
     transaction.Sequence := 4294967295;
     transaction.Script := [];
     transaction.Witness := witness |}.

(** A key-hash spend of an owned coin paying an owned and a foreign
    output. *)
Definition txOwned : transaction.Transaction :=
  {| transaction.Version := 2;
     transaction.Locktime := 0;
     transaction.Inputs := [input [sig; pubkey]];
     transaction.Outputs :=
       [output foreignScript []; output ownedScript blindingKey] |}.

(** An input whose witness stack holds one element, and an owned output
    that does not unblind under the wallet's key. *)
Definition txShortWitness : transaction.Transaction :=
  {| transaction.Version := 2;
     transaction.Locktime := 0;
     transaction.Inputs := [input [sig]];
     transaction.Outputs := [output ownedScript [x99]] |}.

Definition NewTxFromHex (txHex : string) : result transaction.Transaction :=
  if bool_decide (txHex = "0200") then Ok txOwned
  else if bool_decide (txHex = "0201") then Ok txShortWitness
  else Err "encoding/hex: invalid byte".

Definition ExtractUnspents : string -> outcome extracted :=
  ExtractUnspents (list byte) unit NewTxFromHex TxHash ParsePubKey
    FromPublicKey TxIDFromBytes CommitmentFromBytes UnblindOutput
    infoByScript tt.

(** A partially-signed transaction with two inputs and two outputs; keys
    are supplied for the first input and for the second output only. *)
Definition OutpointKey (input : transaction.TxInput) : string :=
  hex.EncodeToString (transaction.Hash input).

Definition pset : wallet.Pset :=
  {| wallet.PsetInputs :=
       [(input [], output ownedScript blindingKey);
        ({| transaction.Hash := [x0f];
            transaction.Index := 0;
            transaction.Sequence := 0;
            transaction.Script := [];
            transaction.Witness := [] |},
         output foreignScript [x77])];
     wallet.PsetOutputs :=
       [output foreignScript [x55]; output ownedScript blindingKey] |}.

Definition NewPsetFromBase64 (psetBase64 : string) : result wallet.Pset :=
  if bool_decide (psetBase64 = "cHNldP8=") then Ok pset
  else Err "illegal base64 data".

Definition inBlindingKeys : gmap string (list byte) :=
  {[ "0102" := blindingKey ]}.

Definition outBlindingKeys : gmap string (list byte) :=
  {[ hex.EncodeToString ownedScript := blindingKey ]}.

Definition ExtractBlindingData
    : string -> gmap string (list byte) -> gmap string (list byte) ->
      wallet.blindingMaps :=
  ExtractBlindingData NewPsetFromBase64 OutpointKey UnblindOutput.

(** The market holds coins of asset A, two pairs of them of equal value;
    the request buys 30,000 A for 5,000 B, and the fee is 650 of the
    network's asset. *)
Definition coin (hash : string) (value : Z) (asset : string) : explorer.Utxo :=
  {| explorer.Hash := hash;
     explorer.Index := 0;
     explorer.Value := value;
     explorer.Asset := asset;
     explorer.Script := ownedScript |}.

Definition liquid : network.Network :=
  {| network.Name := "liquid"; network.AssetID := "L" |}.

Definition request : SwapRequest :=
  {| AssetP := "B";
     AmountP := 5000;
     AssetR := "A";
     AmountR := 30000;
     Transaction :=
       {| TxIns := [ {| LegAsset := "B"; LegValue := 5000; LegScript := "51" |} ];
          TxOuts := [ {| LegAsset := "A"; LegValue := 30000; LegScript := "51" |} ] |} |}.

Definition marketUtxos : list explorer.Utxo :=
  [coin "a0" 20000 "A"; coin "b0" 7000 "B"; coin "a1" 10000 "A";
   coin "a2" 20000 "A"; coin "a3" 10000 "A"; coin "a4" 100000 "A"].

Definition opts (feeUtxos : list explorer.Utxo) : FillProposalOpts :=
  {| Mnemonic := [];
     Request := request;
     MarketUtxos := marketUtxos;
     FeeUtxos := feeUtxos;
     MarketInfo := [info];
     FeeInfo := [info];
     OutputInfo := info;
     ChangeInfo := info;
     FeeChangeInfo := info;
     Network := Some liquid |}.

(** A market without a coin of the requested asset. *)
Definition optsEmptyMarket : FillProposalOpts :=
  {| Mnemonic := [];
     Request := request;
     MarketUtxos := [coin "b0" 7000 "B"];
     FeeUtxos := [coin "f0" 1000 "L"];
     MarketInfo := [info];
     FeeInfo := [info];
     OutputInfo := info;
     ChangeInfo := info;
     FeeChangeInfo := info;
     Network := Some liquid |}.

Definition FeeAmount : Z := 650.

Definition ValidAddress (_ : network.Network) (a : domain.AddressInfo) : bool :=
  negb (bool_decide (domain.Address a = "")).

Definition BlindPset (_ : UnblindedTx) (_ _ : gmap string (list byte))
    : option string :=
  Some "cHNldP8=".

Definition FillProposal : FillProposalOpts -> filled :=
  FillProposal FeeAmount ValidAddress BlindPset explorer.Hash.

End sample.

(** Further sample data: a transaction with a clean key-hash input and two
    owned outputs, the first of which does not unblind under the wallet's
    key; and an unblinder that, unlike the one above, also opens outputs
    the wallet does not own. *)
Module further.

Definition txUnblindFails : transaction.Transaction :=
  {| transaction.Version := 2;
     transaction.Locktime := 0;
     transaction.Inputs := [sample.input [sample.sig; sample.pubkey]];
     transaction.Outputs :=
       [sample.output sample.ownedScript [x99];
        sample.output sample.ownedScript sample.blindingKey] |}.

Definition NewTxFromHex (txHex : string) : result transaction.Transaction :=
  if bool_decide (txHex = "0202") then Ok txUnblindFails
  else sample.NewTxFromHex txHex.

Definition UnblindAnything (out : transaction.TxOutput) (key : list byte)
    : option transactionutil.UnblindedResult :=
  if bool_decide (transaction.OutScript out = sample.ownedScript) then
    sample.UnblindOutput out key
  else
    Some {| transactionutil.AssetHash := "B";
            transactionutil.Value := 1;
            transactionutil.AssetBlinder := [];
            transactionutil.ValueBlinder := [] |}.

Definition ExtractUnspentsWith
    (unblind : transaction.TxOutput -> list byte ->
               option transactionutil.UnblindedResult)
    (infoByScript : gmap string domain.AddressInfo)
    : string -> outcome extracted :=
  ExtractUnspents (list byte) unit NewTxFromHex sample.TxHash
    sample.ParsePubKey sample.FromPublicKey sample.TxIDFromBytes
    sample.CommitmentFromBytes unblind infoByScript tt.

Definition ExtractUnspents : string -> outcome extracted :=
  ExtractUnspentsWith sample.UnblindOutput sample.infoByScript.

Definition data (amount : Z) : wallet.BlindingData :=
  {| wallet.Asset := "A";
     wallet.Amount := amount;
     wallet.AssetBlinder := [x01];
     wallet.AmountBlinder := [x02] |}.

Definition dataMap : gmap nat wallet.BlindingData :=
  {[ 0%nat := data 30000; 2%nat := data 70000 ]}.

(** An extractor that fails while handing back a map it had begun. *)
Definition failingExtractor (_ : string) (_ _ : gmap string (list byte))
    : wallet.blindingMaps :=
  (Some dataMap, None, Some "unable to unblind output").

End further.

(** Collaborators that keep a state: each counts the calls made to it and
    returns what the stand-in above returns. The process starts with
    stale entries in both slice variables. *)
Module counted.

Definition counting {A B : Type} (f : A -> B) (a : A) (w : nat) : B * nat :=
  (f a, S w).

Definition counting2 {A B C : Type} (f : A -> B -> C) (a : A) (b : B)
    (w : nat) : C * nat :=
  (f a b, S w).

Definition staleKey : domain.UnspentKey :=
  {| domain.KeyTxID := "dead"; domain.KeyVOut := 7 |}.

Definition start : process nat :=
  {| world := 0%nat;
     ownedScripts := sample.infoByScript;
     unspentsToAdd := [];
     unspentsToSpend := [staleKey; staleKey] |}.

Definition replay : string -> process nat ->
    (outcome extracted * outcome extracted) * process nat :=
  replay nat (list byte) unit
    (counting sample.NewTxFromHex) (counting sample.TxHash)
    (counting sample.ParsePubKey) (counting2 sample.FromPublicKey)
    (counting sample.TxIDFromBytes) (counting sample.CommitmentFromBytes)
    (counting2 sample.UnblindOutput) tt.

End counted.


(** * Properties *)

(** ** ExtractUnspents *)

Section ExtractUnspentsProperties.

Variables PublicKey Network : Type.
Variable NewTxFromHex : string -> result transaction.Transaction.
Variable TxHash : transaction.Transaction -> string.
Variable ParsePubKey : list byte -> option PublicKey.
Variable FromPublicKey : option PublicKey -> Network -> outcome (list byte).
Variable TxIDFromBytes : list byte -> string.
Variable CommitmentFromBytes : list byte -> string.
Variable UnblindOutput :
  transaction.TxOutput -> list byte -> option transactionutil.UnblindedResult.
Variable infoByScript : gmap string domain.AddressInfo.
Variable network : Network.

Local Abbreviation scan_input :=
  (scanInput PublicKey Network ParsePubKey FromPublicKey TxIDFromBytes
     infoByScript network).
Local Abbreviation scan_inputs :=
  (scanInputs PublicKey Network ParsePubKey FromPublicKey TxIDFromBytes
     infoByScript network).
Local Abbreviation new_unspent := (newUnspent TxHash CommitmentFromBytes).
Local Abbreviation scan_outputs :=
  (scanOutputs TxHash CommitmentFromBytes UnblindOutput infoByScript).
Local Abbreviation owned := (owned infoByScript).
Local Abbreviation extract :=
  (ExtractUnspents PublicKey Network NewTxFromHex TxHash ParsePubKey
     FromPublicKey TxIDFromBytes CommitmentFromBytes UnblindOutput
     infoByScript network).

(** *** The loop over the inputs *)

Lemma scanInput_short_witness (acc : list domain.UnspentKey)
    (input : transaction.TxInput) :
  length (transaction.Witness input) = 1%nat ->
  scan_input acc input = Panics "index out of range [1] with length 1".
Proof.
  intros Hlen. unfold scanInput.
  destruct (transaction.Witness input) as [|w0 [|w1 ws]]; simpl in *;
    try discriminate.
  reflexivity.
Qed.

Lemma scanInputs_short_witness (inputs : list transaction.TxInput) :
  forall (acc : list domain.UnspentKey) (input : transaction.TxInput),
  input ∈ inputs ->
  length (transaction.Witness input) = 1%nat ->
  exists msg, scan_inputs acc inputs = Panics msg.
Proof.
  induction inputs as [|first rest IH]; intros acc input Hin Hlen.
  - inversion Hin.
  - simpl. apply elem_of_cons in Hin as [->|Hin].
    + rewrite scanInput_short_witness by assumption. eexists; reflexivity.
    + destruct (scan_input acc first) as [acc'|msg] eqn:Hfirst.
      * simpl. unfold mbind, outcome_bind. eapply IH; eassumption.
      * eexists; reflexivity.
Qed.

(** *** The loop over the outputs *)

Lemma scanOutputs_fails (tx : transaction.Transaction)
    (outputs : list transaction.TxOutput) :
  forall (i : nat) (acc : list domain.Unspent)
         (out : transaction.TxOutput) (info : domain.AddressInfo),
  out ∈ outputs ->
  owned out info ->
  UnblindOutput out (domain.BlindingKey info) = None ->
  scan_outputs tx i acc outputs = None.
Proof.
  unfold owned.
  induction outputs as [|first rest IH]; intros i acc out info Hin Hown Hfail.
  - inversion Hin.
  - simpl. apply elem_of_cons in Hin as [<-|Hin].
    + rewrite Hown, Hfail. reflexivity.
    + destruct (infoByScript !! hex.EncodeToString (transaction.OutScript first))
        as [info'|]; [|eauto].
      destruct (UnblindOutput first (domain.BlindingKey info'));
        [eauto|reflexivity].
Qed.

(** Where a record of the result comes from: it was in the slice before the
    loop, or it is the literal built for an owned output that unblinds. *)
Lemma scanOutputs_origin (tx : transaction.Transaction)
    (outputs : list transaction.TxOutput) :
  forall (i : nat) (acc unspents : list domain.Unspent) (u : domain.Unspent),
  scan_outputs tx i acc outputs = Some unspents ->
  u ∈ unspents ->
  u ∈ acc \/
  exists (j : nat) out info unconfidential,
    outputs !! j = Some out /\
    owned out info /\
    UnblindOutput out (domain.BlindingKey info) = Some unconfidential /\
    u = new_unspent tx (i + j)%nat out info unconfidential.
Proof.
  unfold owned.
  induction outputs as [|first rest IH]; intros i acc unspents u Hscan Hin.
  - simpl in Hscan. injection Hscan as <-. left; assumption.
  - simpl in Hscan.
    destruct (infoByScript !! hex.EncodeToString (transaction.OutScript first))
      as [info|] eqn:Hinfo.
    + destruct (UnblindOutput first (domain.BlindingKey info)) as [unc|]
        eqn:Hunblind; [|discriminate].
      destruct (IH _ _ _ _ Hscan Hin)
        as [Hacc|(j & out & info' & unc' & H1 & H2 & H3 & H4)].
      * apply elem_of_app in Hacc as [Hacc|Hnew]; [left; assumption|].
        apply list_elem_of_singleton in Hnew. right.
        exists 0%nat, first, info, unc. rewrite Nat.add_0_r. auto.
      * right. exists (S j), out, info', unc'.
        replace (i + S j)%nat with (S i + j)%nat by lia. auto.
    + destruct (IH _ _ _ _ Hscan Hin)
        as [Hacc|(j & out & info' & unc' & H1 & H2 & H3 & H4)].
      * left; assumption.
      * right. exists (S j), out, info', unc'.
        replace (i + S j)%nat with (S i + j)%nat by lia. auto.
Qed.

(** A successful call ran both loops to their end. *)
Lemma ExtractUnspents_success (txHex : string)
    (unspents : list domain.Unspent) (spent : list domain.UnspentKey) :
  extract txHex = Returns (unspents, spent, None) ->
  exists tx,
    NewTxFromHex txHex = Ok tx /\
    scan_inputs [] (transaction.Inputs tx) = Returns spent /\
    scan_outputs tx 0 [] (transaction.Outputs tx) = Some unspents.
Proof.
  unfold ExtractUnspents. intros Hcall.
  destruct (NewTxFromHex txHex) as [tx|err]; [|discriminate].
  exists tx. split; [reflexivity|].
  destruct (scan_inputs [] (transaction.Inputs tx)) as [keys|msg];
    [|discriminate].
  simpl in Hcall. unfold mbind, outcome_bind in Hcall.
  destruct (scan_outputs tx 0 [] (transaction.Outputs tx)); [|discriminate].
  injection Hcall as -> ->. auto.
Qed.

(** The fail-fast policy, once the loop over the inputs has run through:
    one owned output that does not unblind fails the whole call, and
    nothing of what the other outputs and the inputs gave is returned. *)
Lemma ExtractUnspents_unblind_failure (txHex : string)
    (tx : transaction.Transaction) (spent : list domain.UnspentKey)
    (out : transaction.TxOutput) (info : domain.AddressInfo) :
  NewTxFromHex txHex = Ok tx ->
  scan_inputs [] (transaction.Inputs tx) = Returns spent ->
  out ∈ transaction.Outputs tx ->
  owned out info ->
  UnblindOutput out (domain.BlindingKey info) = None ->
  extract txHex = Returns ([], [], Some "unable to unblind output").
Proof.
  intros Hparse Hins Hin Hown Hfail. unfold ExtractUnspents.
  rewrite Hparse, Hins. simpl. unfold mbind, outcome_bind.
  rewrite (scanOutputs_fails _ _ _ _ _ _ Hin Hown Hfail). reflexivity.
Qed.

(** C3: the call does not return on every parseable transaction. When an
    input carries a witness stack of exactly one element, the guard
    [len(in.Witness) > 0] lets it through, [in.Witness[1]] is out of range
    and the call panics. *)
Theorem ExtractUnspents_panics_on_one_element_witness (txHex : string)
    (tx : transaction.Transaction) (input : transaction.TxInput) :
  NewTxFromHex txHex = Ok tx ->
  input ∈ transaction.Inputs tx ->
  length (transaction.Witness input) = 1%nat ->
  exists msg, extract txHex = Panics msg.
Proof.
  intros Hparse Hin Hlen. unfold ExtractUnspents. rewrite Hparse.
  destruct (scanInputs_short_witness _ [] _ Hin Hlen) as [msg Hmsg].
  exists msg. rewrite Hmsg. reflexivity.
Qed.

(** C6: when the hex string does not parse, the call returns the parse
    error with no unspents and no spent keys, whatever the map of owned
    scripts holds. *)
Theorem ExtractUnspents_parse_error (txHex err : string) :
  NewTxFromHex txHex = Err err ->
  extract txHex = Returns ([], [], Some err).
Proof.
  intros Hparse. unfold ExtractUnspents. rewrite Hparse. reflexivity.
Qed.

(** C9: every record of a successful call is the literal built for an
    owned output of the transaction that unblinds: it is unconfirmed and
    carries the unblinded value and asset, the commitments and the script
    of that output, and the address of the matching entry. *)
Theorem ExtractUnspents_unspent_fields (txHex : string)
    (unspents : list domain.Unspent) (spent : list domain.UnspentKey)
    (u : domain.Unspent) :
  extract txHex = Returns (unspents, spent, None) ->
  u ∈ unspents ->
  exists tx (i : nat) out info unconfidential,
    NewTxFromHex txHex = Ok tx /\
    transaction.Outputs tx !! i = Some out /\
    owned out info /\
    UnblindOutput out (domain.BlindingKey info) = Some unconfidential /\
    domain.Confirmed u = false /\
    domain.Value u = transactionutil.Value unconfidential /\
    domain.AssetHash u = transactionutil.AssetHash unconfidential /\
    domain.ValueCommitment u = CommitmentFromBytes (transaction.Value out) /\
    domain.AssetCommitment u = CommitmentFromBytes (transaction.Asset out) /\
    domain.ScriptPubKey u = transaction.OutScript out /\
    domain.UnspentAddress u = domain.Address info /\
    domain.VOut u = uint32_of_index i.
Proof.
  intros Hcall Hin.
  destruct (ExtractUnspents_success _ _ _ Hcall) as (tx & Hparse & _ & Houts).
  destruct (scanOutputs_origin _ _ _ _ _ _ Houts Hin)
    as [Hnil|(j & out & info & unc & Hj & Hown & Hunblind & ->)].
  - inversion Hnil.
  - exists tx, j, out, info, unc. simpl. repeat split; auto.
Qed.

(** C10: every record returned carries a single zero byte as its range
    proof and as its surjection proof, whatever proofs the output of the
    transaction holds. *)
Theorem ExtractUnspents_placeholder_proofs (txHex : string)
    (unspents : list domain.Unspent) (spent : list domain.UnspentKey)
    (err : option string) (u : domain.Unspent) :
  extract txHex = Returns (unspents, spent, err) ->
  u ∈ unspents ->
  domain.RangeProof u = [x00] /\ domain.SurjectionProof u = [x00].
Proof.
  intros Hcall Hin. destruct err as [e|].
  - unfold ExtractUnspents in Hcall.
    destruct (NewTxFromHex txHex) as [tx|err'].
    + destruct (scan_inputs [] (transaction.Inputs tx)) as [keys|msg];
        [|discriminate].
      simpl in Hcall. unfold mbind, outcome_bind in Hcall.
      destruct (scan_outputs tx 0 [] (transaction.Outputs tx));
        [discriminate|].
      injection Hcall as <- _. inversion Hin.
    + injection Hcall as <- _. inversion Hin.
  - destruct (ExtractUnspents_success _ _ _ Hcall) as (tx & _ & _ & Houts).
    destruct (scanOutputs_origin _ _ _ _ _ _ Houts Hin)
      as [Hnil|(j & out & info & unc & _ & _ & _ & ->)].
    + inversion Hnil.
    + split; reflexivity.
Qed.

(** C2: an owned output that does not unblind is not reported as an error
    on every parseable transaction. When an input of the same transaction
    carries a witness stack of exactly one element, the loop over the
    inputs panics before the outputs are looked at, and the call returns
    nothing at all, the unblind error included. *)
Theorem ExtractUnspents_unblind_failure_behind_panic (txHex : string)
    (tx : transaction.Transaction) (input : transaction.TxInput)
    (out : transaction.TxOutput) (info : domain.AddressInfo) :
  NewTxFromHex txHex = Ok tx ->
  input ∈ transaction.Inputs tx ->
  length (transaction.Witness input) = 1%nat ->
  out ∈ transaction.Outputs tx ->
  owned out info ->
  UnblindOutput out (domain.BlindingKey info) = None ->
  (exists msg, extract txHex = Panics msg) /\
  (forall unspents spent err, extract txHex <> Returns (unspents, spent, err)).
Proof.
  intros Hparse Hin Hlen _ _ _.
  destruct (scanInputs_short_witness _ [] _ Hin Hlen) as [msg Hmsg].
  assert (Hcall : extract txHex = Panics msg).
  { unfold ExtractUnspents. rewrite Hparse, Hmsg. reflexivity. }
  split; [eauto|]. intros unspents spent err. rewrite Hcall. discriminate.
Qed.

End ExtractUnspentsProperties.


(** ** ExtractBlindingData *)

Section ExtractBlindingDataProperties.

Variable NewPsetFromBase64 : string -> result wallet.Pset.
Variable OutpointKey : transaction.TxInput -> string.
Variable UnblindOutput :
  transaction.TxOutput -> list byte -> option transactionutil.UnblindedResult.

Local Abbreviation unblind_supplied := (wallet.unblindSupplied UnblindOutput).
Local Abbreviation extract_from_tx :=
  (wallet.ExtractBlindingDataFromTx NewPsetFromBase64 OutpointKey UnblindOutput).
Local Abbreviation extract_data :=
  (ExtractBlindingData NewPsetFromBase64 OutpointKey UnblindOutput).

(** The copy loop of the wrapper rebuilds the map it reads. *)
Lemma convertBlindingData_id (m : gmap nat wallet.BlindingData) :
  convertBlindingData m = m.
Proof.
  unfold convertBlindingData.
  induction m as [|i d m Hfresh IH] using map_ind.
  - apply map_fold_empty.
  - rewrite map_fold_insert_L.
    + rewrite IH. reflexivity.
    + intros j1 j2 z1 z2 y Hne _ _. apply insert_insert_ne. congruence.
    + assumption.
Qed.

Lemma ExtractBlindingData_unfold (psetBase64 : string)
    (inKeys outKeys : gmap string (list byte)) :
  extract_data psetBase64 inKeys outKeys
  = extract_from_tx psetBase64 inKeys outKeys.
Proof.
  unfold ExtractBlindingData, wallet.ExtractBlindingDataFromTx.
  destruct (NewPsetFromBase64 psetBase64) as [ptx|err]; [|reflexivity].
  destruct (unblind_supplied _ _ inKeys 0%nat (wallet.PsetInputs ptx) ∅)
    as [inData|]; [|reflexivity].
  destruct (unblind_supplied _ _ outKeys 0%nat (wallet.PsetOutputs ptx) ∅)
    as [outData|]; [|reflexivity].
  rewrite !convertBlindingData_id. reflexivity.
Qed.

Section Walk.

Context {A : Type}.
Variable ident : A -> string.
Variable confidential : A -> transaction.TxOutput.
Variable keys : gmap string (list byte).

Local Abbreviation walk := (unblind_supplied ident confidential keys).

(** What a walk that runs through leaves in the map: below the start index
    and past the last item nothing changes; at the index of an item without
    a key nothing changes either; at the index of an item with a key sits
    the data unblinded under that key. *)
Lemma unblindSupplied_entries (items : list A) :
  forall (i : nat) (data res : gmap nat wallet.BlindingData),
  walk i items data = Some res ->
  (forall k, (k < i)%nat -> res !! k = data !! k) /\
  (forall k, (i + length items <= k)%nat -> res !! k = data !! k) /\
  (forall j item, items !! j = Some item ->
     match keys !! ident item with
     | None => res !! (i + j)%nat = data !! (i + j)%nat
     | Some key =>
         exists r, UnblindOutput (confidential item) key = Some r /\
                   res !! (i + j)%nat = Some (wallet.toBlindingData r)
     end).
Proof.
  induction items as [|first rest IH]; intros i data res Hwalk.
  - simpl in Hwalk. injection Hwalk as <-.
    repeat split; auto. intros j item Hj. inversion Hj.
  - simpl in Hwalk.
    destruct (keys !! ident first) as [key|] eqn:Hkey.
    + destruct (UnblindOutput (confidential first) key) as [r|] eqn:Hr;
        [|discriminate].
      destruct (IH _ _ _ Hwalk) as (Hlow & Hhigh & Hitems).
      split; [|split].
      * intros k Hk. rewrite Hlow by lia. apply lookup_insert_ne. lia.
      * intros k Hk. simpl in Hk. rewrite Hhigh by lia.
        apply lookup_insert_ne. lia.
      * intros [|j] item Hj.
        -- injection Hj as <-. rewrite Hkey. exists r. split; [assumption|].
           rewrite Nat.add_0_r, Hlow by lia. apply lookup_insert_eq.
        -- simpl in Hj. specialize (Hitems j item Hj).
           replace (i + S j)%nat with (S i + j)%nat by lia.
           destruct (keys !! ident item); [assumption|].
           rewrite Hitems. apply lookup_insert_ne. lia.
    + destruct (IH _ _ _ Hwalk) as (Hlow & Hhigh & Hitems).
      split; [|split].
      * intros k Hk. apply Hlow. lia.
      * intros k Hk. simpl in Hk. apply Hhigh. lia.
      * intros [|j] item Hj.
        -- injection Hj as <-. rewrite Hkey, Nat.add_0_r. apply Hlow. lia.
        -- simpl in Hj. specialize (Hitems j item Hj).
           replace (i + S j)%nat with (S i + j)%nat by lia. assumption.
Qed.

(** Only an item with a key can stop the walk. *)
Lemma unblindSupplied_runs (items : list A) :
  forall (i : nat) (data : gmap nat wallet.BlindingData),
  (forall item key, item ∈ items -> keys !! ident item = Some key ->
     is_Some (UnblindOutput (confidential item) key)) ->
  is_Some (walk i items data).
Proof.
  induction items as [|first rest IH]; intros i data Hok.
  - simpl. eauto.
  - simpl. destruct (keys !! ident first) as [key|] eqn:Hkey.
    + destruct (Hok first key) as [r Hr]; [left|assumption|].
      rewrite Hr. apply IH. intros item key' Hin. apply Hok. right; assumption.
    + apply IH. intros item key' Hin. apply Hok. right; assumption.
Qed.

(** Started on the empty map, a walk leaves an entry exactly where an item
    has a key. *)
Lemma unblindSupplied_from_empty (items : list A)
    (res : gmap nat wallet.BlindingData) (j : nat) :
  walk 0%nat items ∅ = Some res ->
  res !! j =
    match items !! j with
    | None => None
    | Some item =>
        match keys !! ident item with
        | None => None
        | Some key =>
            wallet.toBlindingData <$> UnblindOutput (confidential item) key
        end
    end.
Proof.
  intros Hwalk.
  destruct (unblindSupplied_entries _ _ _ _ Hwalk) as (_ & Hhigh & Hitems).
  destruct (items !! j) as [item|] eqn:Hj.
  - specialize (Hitems j item Hj). simpl in Hitems.
    destruct (keys !! ident item) as [key|].
    + destruct Hitems as (r & -> & ->). reflexivity.
    + rewrite Hitems. apply lookup_empty.
  - apply lookup_ge_None in Hj. rewrite Hhigh by (simpl; lia).
    apply lookup_empty.
Qed.

End Walk.

(** C7: unblinding is attempted only at the input and output indices whose
    key is supplied. If the transaction does not parse, the call fails with
    the error and both maps empty. If it parses, an index without a key
    leaves no entry and raises no error: the call succeeds as soon as every
    index with a key unblinds, and the entries of the maps are exactly the
    data unblinded at the indices with a key. *)
Theorem ExtractBlindingData_supplied_keys_only (psetBase64 : string)
    (inKeys outKeys : gmap string (list byte)) :
  (forall err, NewPsetFromBase64 psetBase64 = Err err ->
     extract_data psetBase64 inKeys outKeys = (None, None, Some err)) /\
  (forall ptx, NewPsetFromBase64 psetBase64 = Ok ptx ->
     (forall input key, input ∈ wallet.PsetInputs ptx ->
        inKeys !! OutpointKey input.1 = Some key ->
        is_Some (UnblindOutput input.2 key)) ->
     (forall out key, out ∈ wallet.PsetOutputs ptx ->
        outKeys !! wallet.outputIdent out = Some key ->
        is_Some (UnblindOutput out key)) ->
     exists inData outData,
       extract_data psetBase64 inKeys outKeys
       = (Some inData, Some outData, None)) /\
  (forall ptx inData outData err,
     NewPsetFromBase64 psetBase64 = Ok ptx ->
     extract_data psetBase64 inKeys outKeys = (Some inData, Some outData, err) ->
     err = None /\
     (forall i, inData !! i =
        match wallet.PsetInputs ptx !! i with
        | None => None
        | Some input =>
            match inKeys !! OutpointKey input.1 with
            | None => None
            | Some key => wallet.toBlindingData <$> UnblindOutput input.2 key
            end
        end) /\
     (forall i, outData !! i =
        match wallet.PsetOutputs ptx !! i with
        | None => None
        | Some out =>
            match outKeys !! wallet.outputIdent out with
            | None => None
            | Some key => wallet.toBlindingData <$> UnblindOutput out key
            end
        end)).
Proof.
  split; [|split].
  - intros err Hparse. rewrite ExtractBlindingData_unfold.
    unfold wallet.ExtractBlindingDataFromTx. rewrite Hparse. reflexivity.
  - intros ptx Hparse Hins Houts. rewrite ExtractBlindingData_unfold.
    unfold wallet.ExtractBlindingDataFromTx. rewrite Hparse.
    destruct (unblindSupplied_runs (fun p => OutpointKey p.1) snd inKeys
                (wallet.PsetInputs ptx) 0%nat ∅ Hins) as [inData ->].
    destruct (unblindSupplied_runs wallet.outputIdent id outKeys
                (wallet.PsetOutputs ptx) 0%nat ∅ Houts) as [outData ->].
    eauto.
  - intros ptx inData outData err Hparse. rewrite ExtractBlindingData_unfold.
    unfold wallet.ExtractBlindingDataFromTx. rewrite Hparse.
    destruct (unblind_supplied _ _ inKeys 0%nat (wallet.PsetInputs ptx) ∅)
      as [inData'|] eqn:Hin; [|discriminate].
    destruct (unblind_supplied _ _ outKeys 0%nat (wallet.PsetOutputs ptx) ∅)
      as [outData'|] eqn:Hout; [|discriminate].
    intros Hcall. injection Hcall as -> -> <-.
    split; [reflexivity|]. split; intros i.
    + apply (unblindSupplied_from_empty _ _ _ _ _ _ Hin).
    + apply (unblindSupplied_from_empty _ _ _ _ _ _ Hout).
Qed.

End ExtractBlindingDataProperties.


(** ** Coin selection *)

Lemma pick_sublist {A : Type} (mask : list bool) :
  forall coins : list A, pick mask coins `sublist_of` coins.
Proof.
  induction mask as [|b mask IH]; intros [|c coins]; simpl;
    try apply sublist_nil_l.
  destruct b; [apply sublist_skip|apply sublist_cons]; apply IH.
Qed.

Lemma masks_length (n : nat) (m : list bool) :
  m ∈ masks n <-> length m = n.
Proof.
  revert m. induction n as [|n IH]; intros m; simpl.
  - rewrite list_elem_of_singleton. destruct m; simpl; split; congruence.
  - rewrite elem_of_app, !list_elem_of_fmap. split.
    + intros [(r & -> & Hr)|(r & -> & Hr)]; apply IH in Hr; simpl; congruence.
    + destruct m as [|[] r]; simpl; intros Hlen; try discriminate;
        [left|right]; exists r; (split; [reflexivity|apply IH; congruence]).
Qed.

Lemma earlier_cons (b : bool) (m1 m2 : list bool) :
  earlier m1 m2 = true -> earlier (b :: m1) (b :: m2) = true.
Proof. intros H. simpl. rewrite Bool.eqb_reflx. exact H. Qed.

(** The enumeration lists the masks in insertion order. *)
Lemma masks_sorted (n : nat) :
  StronglySorted (fun m1 m2 => earlier m1 m2 = true) (masks n).
Proof.
  induction n as [|n IH]; simpl.
  - repeat constructor.
  - apply StronglySorted_app_2.
    + intros x1 x2 H1 H2.
      apply list_elem_of_fmap in H1 as (r1 & -> & _).
      apply list_elem_of_fmap in H2 as (r2 & -> & _).
      reflexivity.
    + eapply StronglySorted_fmap; [|exact IH]. intros; by apply earlier_cons.
    + eapply StronglySorted_fmap; [|exact IH]. intros; by apply earlier_cons.
Qed.

Section CoinSelection.

Variable target : Z.
Variable coins : list explorer.Utxo.

Local Abbreviation total := (selectedSum coins).
Local Abbreviation count := (selectedCount coins).
Local Abbreviation covering := (covers target coins).
Local Abbreviation better := (beats coins).
Local Abbreviation step := (consider target coins).

Lemma beats_true (m b : list bool) :
  better m b = true <->
  total m < total b \/ (total m = total b /\ (count m < count b)%nat).
Proof.
  unfold beats.
  rewrite orb_true_iff, andb_true_iff, Z.ltb_lt, Z.eqb_eq, Nat.ltb_lt. tauto.
Qed.

Lemma beats_false (m b : list bool) :
  better m b = false <->
  total b < total m \/ (total m = total b /\ (count b <= count m)%nat).
Proof.
  rewrite <- not_true_iff_false, beats_true. lia.
Qed.

Lemma covers_true (m : list bool) : covering m = true <-> target <= total m.
Proof. unfold covers. apply Z.leb_le. Qed.

Lemma covers_false (m : list bool) : covering m = false <-> total m < target.
Proof. unfold covers. apply Z.leb_gt. Qed.

(** The fold started on a best mask [b]: it ends on [b], which no later
    mask beats, or on a later mask that beats [b] and every covering mask
    before it, and that no mask after it beats. *)
Lemma foldl_consider_some (l : list (list bool)) :
  forall b w : list bool,
  foldl step (Some b) l = Some w ->
  (w = b /\ forall m, m ∈ l -> covering m = true -> better m b = false) \/
  (exists l1 l2,
     l = l1 ++ w :: l2 /\ covering w = true /\ better w b = true /\
     (forall m, m ∈ l1 -> covering m = true -> better w m = true) /\
     (forall m, m ∈ l2 -> covering m = true -> better m w = false)).
Proof.
  induction l as [|m l IH]; intros b w Hfold.
  - simpl in Hfold. injection Hfold as <-. left. split; [reflexivity|].
    intros m Hm. inversion Hm.
  - simpl in Hfold. unfold consider at 2 in Hfold.
    destruct (covering m) eqn:Hcov; [destruct (better m b) eqn:Hbeat|].
    + destruct (IH _ _ Hfold) as [[-> Hrest]|(l1 & l2 & -> & Hw & Hwm & H1 & H2)].
      * right. exists [], l. repeat split; auto.
        intros x Hx. inversion Hx.
      * right. exists (m :: l1), l2. repeat split; auto.
        -- apply beats_true. apply beats_true in Hwm, Hbeat. lia.
        -- intros x Hx Hxc. apply elem_of_cons in Hx as [->|Hx]; auto.
    + destruct (IH _ _ Hfold) as [[-> Hrest]|(l1 & l2 & -> & Hw & Hwb & H1 & H2)].
      * left. split; [reflexivity|].
        intros x Hx Hxc. apply elem_of_cons in Hx as [->|Hx]; auto.
      * right. exists (m :: l1), l2. repeat split; auto.
        intros x Hx Hxc. apply elem_of_cons in Hx as [->|Hx]; auto.
        apply beats_true. apply beats_true in Hwb. apply beats_false in Hbeat.
        lia.
    + destruct (IH _ _ Hfold) as [[-> Hrest]|(l1 & l2 & -> & Hw & Hwb & H1 & H2)].
      * left. split; [reflexivity|].
        intros x Hx Hxc. apply elem_of_cons in Hx as [->|Hx]; auto.
        congruence.
      * right. exists (m :: l1), l2. repeat split; auto.
        intros x Hx Hxc. apply elem_of_cons in Hx as [->|Hx]; auto.
        congruence.
Qed.

Lemma foldl_consider_keeps (l : list (list bool)) :
  forall b, is_Some (foldl step (Some b) l).
Proof.
  induction l as [|m l IH]; intros b; simpl; [eauto|].
  unfold consider at 2.
  destruct (covering m); [destruct (better m b)|]; apply IH.
Qed.

(** The fold started with no best mask ends with none exactly when no mask
    of the list covers the target. *)
Lemma foldl_consider_none (l : list (list bool)) :
  foldl step None l = None <-> forall m, m ∈ l -> covering m = false.
Proof.
  induction l as [|m l IH]; simpl.
  - split; [|reflexivity]. intros _ m Hm. inversion Hm.
  - unfold consider at 2. destruct (covering m) eqn:Hcov.
    + split.
      * intros Hnone. destruct (foldl_consider_keeps l m) as [w Hw]. congruence.
      * intros Hall. specialize (Hall m (list_elem_of_here _ _)). congruence.
    + rewrite IH. split.
      * intros Hall x Hx. apply elem_of_cons in Hx as [->|Hx]; auto.
      * intros Hall x Hx. apply Hall. by right.
Qed.

(** The mask the fold ends on: it covers, it beats every covering mask
    before it, and no mask after it beats it. *)
Lemma foldl_consider_first (l : list (list bool)) (w : list bool) :
  foldl step None l = Some w ->
  exists l1 l2,
    l = l1 ++ w :: l2 /\ covering w = true /\
    (forall m, m ∈ l1 -> covering m = true -> better w m = true) /\
    (forall m, m ∈ l2 -> covering m = true -> better m w = false).
Proof.
  induction l as [|m l IH]; simpl; [discriminate|].
  unfold consider at 2. destruct (covering m) eqn:Hcov; intros Hfold.
  - destruct (foldl_consider_some _ _ _ Hfold)
      as [[-> Hrest]|(l1 & l2 & -> & Hw & Hwm & H1 & H2)].
    + exists [], l. repeat split; auto. intros x Hx. inversion Hx.
    + exists (m :: l1), l2. repeat split; auto.
      intros x Hx Hxc. apply elem_of_cons in Hx as [->|Hx]; auto.
  - destruct (IH Hfold) as (l1 & l2 & -> & Hw & H1 & H2).
    exists (m :: l1), l2. repeat split; auto.
    intros x Hx Hxc. apply elem_of_cons in Hx as [->|Hx]; auto. congruence.
Qed.

(** The selected subset covers the target with the least leftover; among
    the covering subsets of that leftover it has the fewest inputs; among
    those of that size it is the first in insertion order. *)
Lemma selectCoins_optimal (w : list bool) :
  selectCoins target coins = Some w ->
  length w = length coins /\
  covering w = true /\
  forall m, length m = length coins -> covering m = true ->
    leftover target coins w <= leftover target coins m /\
    (leftover target coins w = leftover target coins m ->
       (count w <= count m)%nat) /\
    (leftover target coins w = leftover target coins m ->
       count w = count m -> w = m \/ earlier w m = true).
Proof.
  unfold selectCoins, leftover. intros Hsel.
  destruct (foldl_consider_first _ _ Hsel) as (l1 & l2 & Hsplit & Hw & H1 & H2).
  assert (Hwin : w ∈ masks (length coins)).
  { rewrite Hsplit. apply elem_of_app. right. left. }
  split; [by apply masks_length|]. split; [assumption|].
  intros m Hlen Hcov. apply masks_length in Hlen.
  rewrite Hsplit in Hlen. apply elem_of_app in Hlen as [Hm|Hm].
  - specialize (H1 m Hm Hcov). apply beats_true in H1.
    repeat split; intros; lia.
  - apply elem_of_cons in Hm as [->|Hm]; [repeat split; intros; auto; lia|].
    specialize (H2 m Hm Hcov). apply beats_false in H2.
    repeat split; try lia. intros _ _. right.
    pose proof (masks_sorted (length coins)) as Hsorted.
    rewrite Hsplit in Hsorted. apply StronglySorted_app_1_r in Hsorted.
    apply StronglySorted_cons in Hsorted as [Hall _].
    rewrite Forall_forall in Hall. by apply Hall.
Qed.

Lemma selectCoins_none :
  selectCoins target coins = None <->
  forall m, length m = length coins -> covering m = false.
Proof.
  unfold selectCoins. rewrite foldl_consider_none.
  split; intros H m Hm; apply H; by apply masks_length.
Qed.

(** A selection exists as soon as some subset covers the target. *)
Lemma selectCoins_some (m : list bool) :
  length m = length coins -> covering m = true ->
  is_Some (selectCoins target coins).
Proof.
  intros Hlen Hcov. destruct (selectCoins target coins) eqn:Hsel; [eauto|].
  rewrite selectCoins_none in Hsel. rewrite Hsel in Hcov by assumption.
  discriminate.
Qed.

End CoinSelection.


(** ** Conservation *)

Lemma assetSum_app (asset : string) (l1 l2 : list Leg) :
  assetSum asset (l1 ++ l2) = assetSum asset l1 + assetSum asset l2.
Proof.
  induction l1 as [|l l1 IH]; simpl; [lia|].
  destruct (decide (LegAsset l = asset)); lia.
Qed.

Lemma assetSum_absent (asset : string) (legs : list Leg) :
  asset ∉ LegAsset <$> legs -> assetSum asset legs = 0.
Proof.
  induction legs as [|l legs IH]; simpl; [reflexivity|].
  rewrite not_elem_of_cons. intros [Hne Hrest].
  destruct (decide (LegAsset l = asset)); [congruence|auto].
Qed.

(** The test of the builder decides conservation for every asset, present
    in the transaction or not. *)
Lemma conserved_true (tx : UnblindedTx) :
  conserved tx = true <->
  forall asset, assetSum asset (TxIns tx) = assetSum asset (TxOuts tx).
Proof.
  unfold conserved. rewrite forallb_forall. split.
  - intros Hall asset.
    destruct (decide (asset ∈ LegAsset <$> TxIns tx ++ TxOuts tx)) as [Hin|Hout].
    + apply Z.eqb_eq, Hall, list_elem_of_In, Hin.
    + rewrite fmap_app, not_elem_of_app in Hout. destruct Hout as [H1 H2].
      rewrite !assetSum_absent by assumption. reflexivity.
  - intros Hall asset _. apply Z.eqb_eq, Hall.
Qed.

Lemma assetSum_utxos (asset held : string) (utxos : list explorer.Utxo) :
  (forall u, u ∈ utxos -> explorer.Asset u = held) ->
  assetSum asset (legOfUtxo <$> utxos)
  = if decide (held = asset) then sumValues utxos else 0.
Proof.
  induction utxos as [|u utxos IH]; intros Hheld; csimpl.
  - destruct (decide (held = asset)); reflexivity.
  - rewrite IH by (intros; apply Hheld; by right).
    rewrite (Hheld u) by left.
    destruct (decide (held = asset)); reflexivity.
Qed.

Lemma assetSum_changeTo (asset held : string) (info : domain.AddressInfo)
    (amount : Z) :
  assetSum asset (changeTo info held amount)
  = if decide (held = asset) then amount else 0.
Proof.
  unfold changeTo. destruct (amount =? 0) eqn:Hzero; simpl.
  - apply Z.eqb_eq in Hzero. destruct (decide (held = asset)); lia.
  - destruct (decide (held = asset)); lia.
Qed.

Lemma pick_ofAsset (asset : string) (utxos : list explorer.Utxo)
    (mask : list bool) (u : explorer.Utxo) :
  u ∈ pick mask (ofAsset asset utxos) -> explorer.Asset u = asset.
Proof.
  intros Hin. eapply elem_of_sublist in Hin; [|apply pick_sublist].
  unfold ofAsset in Hin. apply list_elem_of_filter in Hin as [Hasset _].
  exact Hasset.
Qed.

Section FillProposalProperties.

Variable FeeAmount : Z.
Variable ValidAddress : network.Network -> domain.AddressInfo -> bool.
Variable BlindPset :
  UnblindedTx -> gmap string (list byte) -> gmap string (list byte) ->
  option string.
Variable OutpointKey : explorer.Utxo -> string.

Local Abbreviation fill :=
  (FillProposal FeeAmount ValidAddress BlindPset OutpointKey).

(** What the builder adds to a balanced request keeps every asset in
    balance: the selected coins pay the requested amount and their change,
    the fee coins pay the fee and its change. *)
Lemma assemble_conserved (opts : FillProposalOpts) (feeAsset : string)
    (marketMask feeMask : list bool) :
  balancedRequest (Request opts) ->
  conserved
    (assemble FeeAmount (Request opts) opts feeAsset
       (pick marketMask (ofAsset (AssetR (Request opts)) (MarketUtxos opts)))
       (pick feeMask (ofAsset feeAsset (FeeUtxos opts)))) = true.
Proof.
  intros Hreq. apply conserved_true. intros asset. unfold assemble.
  cbn [TxIns TxOuts].
  rewrite fmap_app, !assetSum_app, !assetSum_changeTo.
  rewrite (assetSum_utxos asset (AssetR (Request opts)))
    by (intros u; apply pick_ofAsset).
  rewrite (assetSum_utxos asset feeAsset) by (intros u; apply pick_ofAsset).
  specialize (Hreq asset). simpl.
  destruct (decide (AssetR (Request opts) = asset));
    destruct (decide (AssetP (Request opts) = asset));
    destruct (decide (feeAsset = asset)); lia.
Qed.

(** A proposal is returned only at the end of the six steps. *)
Lemma FillProposal_filled (opts : FillProposalOpts) (r : FillProposalResult) :
  fill opts = Filled r ->
  exists net marketMask feeMask,
    let req := Request opts in
    let marketCoins := ofAsset (AssetR req) (MarketUtxos opts) in
    let feeCoins := ofAsset (network.AssetID net) (FeeUtxos opts) in
    let tx := assemble FeeAmount req opts (network.AssetID net)
                (pick marketMask marketCoins) (pick feeMask feeCoins) in
    selectCoins (AmountR req) marketCoins = Some marketMask /\
    Network opts = Some net /\
    selectCoins FeeAmount feeCoins = Some feeMask /\
    conserved tx = true /\
    BlindPset tx (InputBlindingKeys r) (OutputBlindingKeys r)
      = Some (PsetBase64 r) /\
    SelectedUnspents r = pick marketMask marketCoins ++ pick feeMask feeCoins.
Proof.
  unfold FillProposal, fillProposal. intros Hfill.
  destruct (selectCoins (AmountR (Request opts)) _) as [marketMask|] eqn:Hmarket;
    [|discriminate].
  destruct (Network opts) as [net|]; [|discriminate].
  destruct (selectCoins FeeAmount _) as [feeMask|] eqn:Hfee; [|discriminate].
  destruct (negb (ValidAddress net (OutputInfo opts) && _ && _));
    [discriminate|].
  destruct (negb (conserved _)) eqn:Hcons; [discriminate|].
  apply negb_false_iff in Hcons.
  destruct (BlindPset _ _ _) as [psetBase64|] eqn:Hblind; [|discriminate].
  injection Hfill as <-. exists net, marketMask, feeMask. simpl.
  repeat split; assumption || reflexivity.
Qed.

(** The builder does return proposals: on a balanced request, once both
    selections find coins, the addresses are well formed and blinding
    succeeds, the call ends with a proposal. *)
Lemma FillProposal_fills (opts : FillProposalOpts) (net : network.Network)
    (marketMask feeMask : list bool) (psetBase64 : string) :
  let req := Request opts in
  let marketCoins := ofAsset (AssetR req) (MarketUtxos opts) in
  let feeCoins := ofAsset (network.AssetID net) (FeeUtxos opts) in
  balancedRequest req ->
  selectCoins (AmountR req) marketCoins = Some marketMask ->
  Network opts = Some net ->
  selectCoins FeeAmount feeCoins = Some feeMask ->
  ValidAddress net (OutputInfo opts) = true ->
  ValidAddress net (ChangeInfo opts) = true ->
  ValidAddress net (FeeChangeInfo opts) = true ->
  (forall tx inKeys outKeys, BlindPset tx inKeys outKeys = Some psetBase64) ->
  exists r,
    fill opts = Filled r /\
    PsetBase64 r = psetBase64 /\
    SelectedUnspents r = pick marketMask marketCoins ++ pick feeMask feeCoins.
Proof.
  intros req marketCoins feeCoins Hreq Hmarket Hnet Hfee Hout Hchange
    Hfeechange Hblind.
  unfold FillProposal, fillProposal. fold req marketCoins.
  rewrite Hmarket, Hnet. fold feeCoins. rewrite Hfee, Hout, Hchange, Hfeechange.
  simpl. unfold req, marketCoins, feeCoins.
  rewrite assemble_conserved by exact Hreq. simpl. rewrite Hblind.
  eexists. repeat split; reflexivity.
Qed.

(** C1: the transaction behind every proposal the builder returns conserves
    value: for each asset the unblinded input values and the unblinded
    output values, the fee among them, have the same sum. A transaction
    that fails the test ends the call with an error. *)
Theorem FillProposal_conserves (opts : FillProposalOpts)
    (r : FillProposalResult) :
  fill opts = Filled r ->
  exists tx,
    BlindPset tx (InputBlindingKeys r) (OutputBlindingKeys r)
      = Some (PsetBase64 r) /\
    (exists selectedMarket selectedFee,
       SelectedUnspents r = selectedMarket ++ selectedFee /\
       TxIns tx = TxIns (Transaction (Request opts))
                  ++ (legOfUtxo <$> selectedMarket ++ selectedFee)) /\
    feeOutput
      (match Network opts with Some net => network.AssetID net | None => "" end)
      FeeAmount ∈ TxOuts tx /\
    forall asset, assetSum asset (TxIns tx) = assetSum asset (TxOuts tx).
Proof.
  intros Hfill.
  destruct (FillProposal_filled _ _ Hfill)
    as (net & marketMask & feeMask & _ & Hnet & _ & Hcons & Hblind & Hsel).
  simpl in *. eexists. split; [exact Hblind|]. split; [|split].
  - eexists _, _. split; [exact Hsel|reflexivity].
  - rewrite Hnet. unfold assemble. simpl.
    rewrite !elem_of_app, elem_of_cons, !elem_of_app, list_elem_of_singleton.
    tauto.
  - by apply conserved_true.
Qed.

(** C4: two calls with the same request and the same market coins in the
    same order select the same subset of them. That subset covers the
    requested amount with the least leftover; among the covering subsets of
    equal leftover it has the fewest inputs, and among those of equal size
    it is the first in the insertion order of the coins. *)
Theorem FillProposal_selection_deterministic (opts1 opts2 : FillProposalOpts)
    (r1 r2 : FillProposalResult) :
  Request opts1 = Request opts2 ->
  MarketUtxos opts1 = MarketUtxos opts2 ->
  fill opts1 = Filled r1 ->
  fill opts2 = Filled r2 ->
  let target := AmountR (Request opts1) in
  let coins := ofAsset (AssetR (Request opts1)) (MarketUtxos opts1) in
  exists mask fee1 fee2,
    SelectedUnspents r1 = pick mask coins ++ fee1 /\
    SelectedUnspents r2 = pick mask coins ++ fee2 /\
    fee1 `sublist_of` FeeUtxos opts1 /\
    fee2 `sublist_of` FeeUtxos opts2 /\
    length mask = length coins /\
    0 <= leftover target coins mask /\
    forall m, length m = length coins -> 0 <= leftover target coins m ->
      leftover target coins mask <= leftover target coins m /\
      (leftover target coins mask = leftover target coins m ->
         (selectedCount coins mask <= selectedCount coins m)%nat) /\
      (leftover target coins mask = leftover target coins m ->
         selectedCount coins mask = selectedCount coins m ->
         mask = m \/ earlier mask m = true).
Proof.
  intros Hreq Hutxos Hfill1 Hfill2 target coins.
  destruct (FillProposal_filled _ _ Hfill1)
    as (net1 & mask1 & feeMask1 & Hm1 & _ & _ & _ & _ & Hsel1).
  destruct (FillProposal_filled _ _ Hfill2)
    as (net2 & mask2 & feeMask2 & Hm2 & _ & _ & _ & _ & Hsel2).
  simpl in *. rewrite <- Hreq, <- Hutxos in Hm2, Hsel2.
  fold target coins in Hm1, Hm2, Hsel1, Hsel2.
  assert (mask2 = mask1) as -> by congruence.
  destruct (selectCoins_optimal _ _ _ Hm1) as (Hlen & Hcov & Hbest).
  exists mask1, (pick feeMask1 (ofAsset (network.AssetID net1) (FeeUtxos opts1))),
    (pick feeMask2 (ofAsset (network.AssetID net2) (FeeUtxos opts2))).
  split; [exact Hsel1|]. split; [exact Hsel2|].
  split; [etrans; [apply pick_sublist|apply sublist_filter]|].
  split; [etrans; [apply pick_sublist|apply sublist_filter]|].
  split; [exact Hlen|]. apply covers_true in Hcov.
  split; [unfold leftover; lia|].
  intros m Hmlen Hmcov. apply Hbest; [exact Hmlen|].
  apply covers_true. unfold leftover in Hmcov. lia.
Qed.

(** C5: when no subset of the market's coins of the requested asset has a
    value sum that covers the requested amount, the call ends with the
    insufficient-funds error and returns no proposal; this is so in
    particular when the market holds no coin of that asset and the amount
    is positive. The error is not the one of the fee leg. *)
Theorem FillProposal_insufficient_funds (opts : FillProposalOpts) :
  ((forall subset,
      subset `sublist_of` MarketUtxos opts ->
      (forall u, u ∈ subset -> explorer.Asset u = AssetR (Request opts)) ->
      sumValues subset < AmountR (Request opts)) ->
   fill opts = Failed InsufficientFundsError) /\
  ((forall u, u ∈ MarketUtxos opts ->
      explorer.Asset u <> AssetR (Request opts)) ->
   0 < AmountR (Request opts) ->
   fill opts = Failed InsufficientFundsError) /\
  (forall r, Failed InsufficientFundsError <> Filled r) /\
  InsufficientFundsError <> InsufficientFeeFundsError.
Proof.
  assert (Hgeneral :
    (forall subset,
      subset `sublist_of` MarketUtxos opts ->
      (forall u, u ∈ subset -> explorer.Asset u = AssetR (Request opts)) ->
      sumValues subset < AmountR (Request opts)) ->
    fill opts = Failed InsufficientFundsError).
  { intros Hnone. unfold FillProposal, fillProposal.
    replace (selectCoins _ _) with (@None (list bool)); [reflexivity|].
    symmetry. apply selectCoins_none. intros m _. apply covers_false.
    apply Hnone.
    - etrans; [apply pick_sublist|apply sublist_filter].
    - intros u. apply pick_ofAsset. }
  split; [exact Hgeneral|]. split; [|split; [discriminate|discriminate]].
  intros Hempty Hpos. apply Hgeneral. intros subset Hsub Hasset.
  destruct subset as [|u subset]; [exact Hpos|].
  exfalso. apply (Hempty u).
  - eapply elem_of_sublist; [left|exact Hsub].
  - apply Hasset. left.
Qed.

End FillProposalProperties.


(** ** The properties on the sample data *)

Lemma ExtractUnspents_unblind_failure_behind_panic_witness :
  (exists msg, sample.ExtractUnspents "0201" = Panics msg) /\
  (forall unspents spent err,
     sample.ExtractUnspents "0201" <> Returns (unspents, spent, err)).
Proof.
  apply (ExtractUnspents_unblind_failure_behind_panic (list byte) unit
           sample.NewTxFromHex sample.TxHash sample.ParsePubKey
           sample.FromPublicKey sample.TxIDFromBytes
           sample.CommitmentFromBytes sample.UnblindOutput
           sample.infoByScript tt "0201" sample.txShortWitness
           (sample.input [sample.sig])
           (sample.output sample.ownedScript [x99]) sample.info).
  - reflexivity.
  - left.
  - reflexivity.
  - left.
  - reflexivity.
  - reflexivity.
Defined.

Lemma ExtractUnspents_panics_on_one_element_witness_witness :
  exists msg, sample.ExtractUnspents "0201" = Panics msg.
Proof.
  apply (ExtractUnspents_panics_on_one_element_witness (list byte) unit
           sample.NewTxFromHex sample.TxHash sample.ParsePubKey
           sample.FromPublicKey sample.TxIDFromBytes
           sample.CommitmentFromBytes sample.UnblindOutput
           sample.infoByScript tt "0201" sample.txShortWitness
           (sample.input [sample.sig])).
  - reflexivity.
  - left.
  - reflexivity.
Defined.

Lemma ExtractUnspents_parse_error_witness :
  sample.ExtractUnspents "zz"
  = Returns ([], [], Some "encoding/hex: invalid byte").
Proof.
  apply (ExtractUnspents_parse_error (list byte) unit
           sample.NewTxFromHex sample.TxHash sample.ParsePubKey
           sample.FromPublicKey sample.TxIDFromBytes
           sample.CommitmentFromBytes sample.UnblindOutput
           sample.infoByScript tt "zz").
  reflexivity.
Defined.

Lemma ExtractUnspents_unspent_fields_witness :
  exists unspents spent u,
    sample.ExtractUnspents "0200" = Returns (unspents, spent, None) /\
    u ∈ unspents /\
    domain.Confirmed u = false /\
    domain.Value u = 100000 /\
    domain.UnspentAddress u = "el1qqsample" /\
    domain.VOut u = 1.
Proof.
  eexists _, _, _. split; [reflexivity|]. split; [left|].
  destruct (ExtractUnspents_unspent_fields (list byte) unit
              sample.NewTxFromHex sample.TxHash sample.ParsePubKey
              sample.FromPublicKey sample.TxIDFromBytes
              sample.CommitmentFromBytes sample.UnblindOutput
              sample.infoByScript tt "0200" _ _ _ eq_refl
              (list_elem_of_here _ _))
    as (tx & i & out & info & unc & _ & _ & _ & _ & Hconfirmed & _).
  split; [exact Hconfirmed|]. repeat split; reflexivity.
Defined.

Lemma ExtractUnspents_placeholder_proofs_witness :
  exists unspents spent u,
    sample.ExtractUnspents "0200" = Returns (unspents, spent, None) /\
    u ∈ unspents /\
    domain.RangeProof u = [x00] /\
    domain.SurjectionProof u = [x00] /\
    transaction.RangeProof (sample.output sample.ownedScript sample.blindingKey)
    <> [x00].
Proof.
  eexists _, _, _. split; [reflexivity|]. split; [left|].
  destruct (ExtractUnspents_placeholder_proofs (list byte) unit
              sample.NewTxFromHex sample.TxHash sample.ParsePubKey
              sample.FromPublicKey sample.TxIDFromBytes
              sample.CommitmentFromBytes sample.UnblindOutput
              sample.infoByScript tt "0200" _ _ None _ eq_refl
              (list_elem_of_here _ _)) as [Hrange Hsurjection].
  split; [exact Hrange|]. split; [exact Hsurjection|]. discriminate.
Defined.

Lemma ExtractBlindingData_supplied_keys_only_witness :
  sample.ExtractBlindingData "cHNldP8" sample.inBlindingKeys
    sample.outBlindingKeys
  = (None, None, Some "illegal base64 data") /\
  exists inData outData,
    sample.ExtractBlindingData "cHNldP8=" sample.inBlindingKeys
      sample.outBlindingKeys
    = (Some inData, Some outData, None) /\
    is_Some (inData !! 0%nat) /\ inData !! 1%nat = None /\
    outData !! 0%nat = None /\ is_Some (outData !! 1%nat).
Proof.
  split.
  - apply (ExtractBlindingData_supplied_keys_only sample.NewPsetFromBase64
             sample.OutpointKey sample.UnblindOutput "cHNldP8"
             sample.inBlindingKeys sample.outBlindingKeys).
    reflexivity.
  - destruct (ExtractBlindingData_supplied_keys_only sample.NewPsetFromBase64
                sample.OutpointKey sample.UnblindOutput "cHNldP8="
                sample.inBlindingKeys sample.outBlindingKeys)
      as (_ & Hruns & Hentries).
    destruct (Hruns sample.pset eq_refl) as (inData & outData & Hcall).
    + intros input key Hin Hkey.
      apply elem_of_cons in Hin as [->|Hin].
      { vm_compute in Hkey. injection Hkey as <-. vm_compute. eauto. }
      apply list_elem_of_singleton in Hin as ->.
      vm_compute in Hkey. discriminate.
    + intros out key Hin Hkey.
      apply elem_of_cons in Hin as [->|Hin].
      { vm_compute in Hkey. discriminate. }
      apply list_elem_of_singleton in Hin as ->.
      vm_compute in Hkey. injection Hkey as <-. vm_compute. eauto.
    + exists inData, outData. split; [exact Hcall|].
      destruct (Hentries sample.pset inData outData None eq_refl Hcall)
        as (_ & Hin & Hout).
      rewrite (Hin 0%nat), (Hin 1%nat), (Hout 0%nat), (Hout 1%nat).
      vm_compute. repeat split; eauto.
Defined.

Lemma FillProposal_conserves_witness :
  exists r,
    sample.FillProposal (sample.opts [sample.coin "f0" 1000 "L"]) = Filled r /\
    exists tx,
      sample.BlindPset tx (InputBlindingKeys r) (OutputBlindingKeys r)
        = Some (PsetBase64 r) /\
      feeOutput "L" 650 ∈ TxOuts tx /\
      forall asset, assetSum asset (TxIns tx) = assetSum asset (TxOuts tx).
Proof.
  eexists. split; [vm_compute; reflexivity|].
  destruct (FillProposal_conserves sample.FeeAmount sample.ValidAddress
              sample.BlindPset explorer.Hash
              (sample.opts [sample.coin "f0" 1000 "L"]) _ eq_refl)
    as (tx & Hblind & _ & Hfee & Hsum).
  exists tx. split; [exact Hblind|]. split; [exact Hfee|exact Hsum].
Defined.

Lemma FillProposal_selection_deterministic_witness :
  exists r1 r2,
    sample.FillProposal (sample.opts [sample.coin "f0" 1000 "L"]) = Filled r1 /\
    sample.FillProposal
      (sample.opts [sample.coin "f0" 500 "L"; sample.coin "f1" 150 "L"])
    = Filled r2 /\
    exists mask fee1 fee2,
      SelectedUnspents r1
      = pick mask (ofAsset "A" sample.marketUtxos) ++ fee1 /\
      SelectedUnspents r2
      = pick mask (ofAsset "A" sample.marketUtxos) ++ fee2 /\
      length mask = 5%nat /\
      0 <= leftover 30000 (ofAsset "A" sample.marketUtxos) mask.
Proof.
  eexists _, _. split; [vm_compute; reflexivity|].
  split; [vm_compute; reflexivity|].
  destruct (FillProposal_selection_deterministic sample.FeeAmount
              sample.ValidAddress sample.BlindPset explorer.Hash
              (sample.opts [sample.coin "f0" 1000 "L"])
              (sample.opts [sample.coin "f0" 500 "L"; sample.coin "f1" 150 "L"])
              _ _ eq_refl eq_refl eq_refl eq_refl)
    as (mask & fee1 & fee2 & H1 & H2 & _ & _ & Hlen & Hcov & _).
  exists mask, fee1, fee2. repeat split; assumption.
Defined.

Lemma FillProposal_insufficient_funds_witness :
  sample.FillProposal sample.optsEmptyMarket = Failed InsufficientFundsError /\
  InsufficientFundsError <> InsufficientFeeFundsError.
Proof.
  destruct (FillProposal_insufficient_funds sample.FeeAmount
              sample.ValidAddress sample.BlindPset explorer.Hash
              sample.optsEmptyMarket) as (Hgeneral & Hempty & _ & Hkinds).
  split; [|exact Hkinds]. apply Hempty.
  - intros u Hu. apply list_elem_of_singleton in Hu as ->. discriminate.
  - reflexivity.
Defined.


(** * Further properties *)

(** ** The loops of ExtractUnspents *)

Section ExtractUnspentsLoops.

Variables PublicKey Network : Type.
Variable NewTxFromHex : string -> result transaction.Transaction.
Variable TxHash : transaction.Transaction -> string.
Variable ParsePubKey : list byte -> option PublicKey.
Variable FromPublicKey : option PublicKey -> Network -> outcome (list byte).
Variable TxIDFromBytes : list byte -> string.
Variable CommitmentFromBytes : list byte -> string.
Variable UnblindOutput :
  transaction.TxOutput -> list byte -> option transactionutil.UnblindedResult.
Variable infoByScript : gmap string domain.AddressInfo.
Variable network : Network.

Local Abbreviation scan_input :=
  (scanInput PublicKey Network ParsePubKey FromPublicKey TxIDFromBytes
     infoByScript network).
Local Abbreviation scan_inputs :=
  (scanInputs PublicKey Network ParsePubKey FromPublicKey TxIDFromBytes
     infoByScript network).
Local Abbreviation new_unspent := (newUnspent TxHash CommitmentFromBytes).
Local Abbreviation scan_outputs :=
  (scanOutputs TxHash CommitmentFromBytes UnblindOutput infoByScript).
Local Abbreviation owns := (owned infoByScript).
Local Abbreviation outpoint := (outpointOf TxIDFromBytes).
Local Abbreviation derives :=
  (derivesScript PublicKey Network ParsePubKey FromPublicKey network).
Local Abbreviation clean :=
  (scansCleanly PublicKey Network ParsePubKey FromPublicKey network).
Local Abbreviation spends :=
  (spendsOwned PublicKey Network ParsePubKey FromPublicKey infoByScript
     network).
Local Abbreviation owned_outputs := (ownedOutputs infoByScript).
Local Abbreviation extract :=
  (ExtractUnspents PublicKey Network NewTxFromHex TxHash ParsePubKey
     FromPublicKey TxIDFromBytes CommitmentFromBytes UnblindOutput
     infoByScript network).

(** The record an owned output gives rise to. *)
Local Abbreviation recorded tx :=
  (fun (u : domain.Unspent)
       (e : nat * transaction.TxOutput * domain.AddressInfo) =>
     exists unconfidential,
       UnblindOutput e.1.2 (domain.BlindingKey e.2) = Some unconfidential /\
       u = new_unspent tx e.1.1 e.1.2 e.2 unconfidential).

Lemma derivesScript_functional (input : transaction.TxInput)
    (s1 s2 : list byte) :
  derives input s1 -> derives input s2 -> s1 = s2.
Proof.
  intros (w0 & w1 & ws & Hw & H1) (w0' & w1' & ws' & Hw' & H2).
  rewrite Hw in Hw'. injection Hw' as <- <- <-. congruence.
Qed.

(** What one iteration over an input does, case by case. *)
Lemma scanInput_cases (acc : list domain.UnspentKey)
    (input : transaction.TxInput) :
  (~ clean input /\ exists msg, scan_input acc input = Panics msg) \/
  (clean input /\ spends input /\
   scan_input acc input = Returns (acc ++ [outpoint input])) \/
  (clean input /\ ~ spends input /\ scan_input acc input = Returns acc).
Proof.
  unfold scanInput, scansCleanly, spendsOwned, derivesScript.
  destruct (transaction.Witness input) as [|w0 [|w1 ws]] eqn:Hw; simpl.
  - right; right. split; [by left|]. split; [|reflexivity].
    intros (s & (? & ? & ? & ? & _) & _). discriminate.
  - left. split; [|eauto].
    intros [?|(s & ? & ? & ? & ? & _)]; discriminate.
  - destruct (FromPublicKey (ParsePubKey w1) network) as [script|msg] eqn:Hp.
    + simpl. unfold mbind, outcome_bind.
      assert (Hclean : [w0; w1] ++ ws = [] \/
                exists s w0' w1' ws',
                  w0 :: w1 :: ws = w0' :: w1' :: ws' /\
                  FromPublicKey (ParsePubKey w1') network = Returns s).
      { right. exists script, w0, w1, ws. auto. }
      destruct (infoByScript !! hex.EncodeToString script) as [info|] eqn:Hi.
      * right; left. split; [exact Hclean|]. split; [|reflexivity].
        exists script. split; [exists w0, w1, ws; auto|]. rewrite Hi. eauto.
      * right; right. split; [exact Hclean|]. split; [|reflexivity].
        intros (s & (w0' & w1' & ws' & Heq & Hs) & Hsome).
        injection Heq as <- <- <-. rewrite Hp in Hs. injection Hs as <-.
        rewrite Hi in Hsome. by destruct Hsome.
    + left. split; [|eauto].
      intros [?|(s & w0' & w1' & ws' & Heq & Hs)]; [discriminate|].
      injection Heq as <- <- <-. congruence.
Qed.

(** The loop over the inputs returns exactly when every input scans
    cleanly. *)
Lemma scanInputs_returns_iff (inputs : list transaction.TxInput) :
  forall acc,
  (exists keys, scan_inputs acc inputs = Returns keys) <->
  Forall clean inputs.
Proof.
  induction inputs as [|input rest IH]; intros acc; simpl.
  - split; [constructor|eauto].
  - rewrite Forall_cons.
    destruct (scanInput_cases acc input)
      as [(Hno & msg & ->)|[(Hyes & _ & ->)|(Hyes & _ & ->)]]; simpl;
      unfold mbind, outcome_bind.
    + split; [intros [keys ?]; discriminate|tauto].
    + rewrite IH. tauto.
    + rewrite IH. tauto.
Qed.

(** What the loop over the inputs adds to the slice: the outpoints of the
    inputs that spend a coin of the wallet, in the order of the inputs. *)
Lemma scanInputs_added (inputs : list transaction.TxInput) :
  forall acc keys,
  scan_inputs acc inputs = Returns keys ->
  exists added,
    keys = acc ++ added /\
    added `sublist_of` (outpoint <$> inputs) /\
    (forall k, k ∈ added <->
       exists input, input ∈ inputs /\ spends input /\ k = outpoint input).
Proof.
  induction inputs as [|input rest IH]; intros acc keys Hscan; simpl in Hscan.
  - injection Hscan as <-. exists []. rewrite app_nil_r.
    split; [reflexivity|]. split; [constructor|].
    intros k. split; [inversion 1|]. intros (i & Hi & _). inversion Hi.
  - destruct (scanInput_cases acc input)
      as [(_ & msg & Hin)|[(_ & Hsp & Hin)|(_ & Hsp & Hin)]];
      rewrite Hin in Hscan; simpl in Hscan; unfold mbind, outcome_bind in Hscan.
    + discriminate.
    + destruct (IH _ _ Hscan) as (added & -> & Hsub & Hmem).
      exists (outpoint input :: added). rewrite <- app_assoc.
      split; [reflexivity|]. split; [csimpl; by apply sublist_skip|].
      intros k. rewrite elem_of_cons, Hmem. split.
      * intros [->|(i & Hi & Hs & ->)].
        -- exists input. split; [left|auto].
        -- exists i. split; [by right|auto].
      * intros (i & Hi & Hs & ->). apply elem_of_cons in Hi as [->|Hi];
          [by left|right; eauto].
    + destruct (IH _ _ Hscan) as (added & -> & Hsub & Hmem).
      exists added. split; [reflexivity|].
      split; [csimpl; by apply sublist_cons|].
      intros k. rewrite Hmem. split.
      * intros (i & Hi & Hs & ->). exists i. split; [by right|auto].
      * intros (i & Hi & Hs & ->). apply elem_of_cons in Hi as [->|Hi];
          [contradiction|eauto].
Qed.

(** *** The outputs *)

Lemma ownedOutputs_elem (outputs : list transaction.TxOutput) :
  forall (i j : nat) out info,
  (j, out, info) ∈ owned_outputs i outputs <->
  exists k, j = (i + k)%nat /\ outputs !! k = Some out /\ owns out info.
Proof.
  unfold owned.
  induction outputs as [|first rest IH]; intros i j out info; simpl.
  - split; [inversion 1|]. intros (k & _ & Hk & _). inversion Hk.
  - destruct (infoByScript !! hex.EncodeToString (transaction.OutScript first))
      as [info'|] eqn:Hfirst.
    + rewrite elem_of_cons, IH. split.
      * intros [Heq|(k & -> & Hk & Hown)].
        -- injection Heq as -> -> ->. exists 0%nat.
           rewrite Nat.add_0_r. auto.
        -- exists (S k). split; [lia|auto].
      * intros ([|k] & -> & Hk & Hown).
        -- injection Hk as <-. left. rewrite Nat.add_0_r. congruence.
        -- right. exists k. split; [lia|auto].
    + rewrite IH. split.
      * intros (k & -> & Hk & Hown). exists (S k). split; [lia|auto].
      * intros ([|k] & -> & Hk & Hown).
        -- injection Hk as <-. congruence.
        -- exists k. split; [lia|auto].
Qed.


(** What the loop over the outputs adds to the slice: one record for each
    owned output, in the order of the transaction. *)
Lemma scanOutputs_added (tx : transaction.Transaction)
    (outputs : list transaction.TxOutput) :
  forall i acc unspents,
  scan_outputs tx i acc outputs = Some unspents ->
  exists added,
    unspents = acc ++ added /\
    Forall2 (recorded tx) added (owned_outputs i outputs).
Proof.
  induction outputs as [|first rest IH]; intros i acc unspents Hscan;
    simpl in Hscan |- *.
  - injection Hscan as <-. exists []. rewrite app_nil_r. split; constructor.
  - destruct (infoByScript !! hex.EncodeToString (transaction.OutScript first))
      as [info|].
    + destruct (UnblindOutput first (domain.BlindingKey info)) as [unc|]
        eqn:Hunblind; [|discriminate].
      destruct (IH _ _ _ Hscan) as (added & -> & Hall).
      exists (new_unspent tx i first info unc :: added).
      rewrite <- app_assoc. split; [reflexivity|].
      constructor; [|exact Hall]. exists unc. auto.
    + apply IH. exact Hscan.
Qed.

(** The loop over the outputs runs through when every owned output
    unblinds, and stops only at an owned output that does not. *)
Lemma scanOutputs_runs_iff (tx : transaction.Transaction)
    (outputs : list transaction.TxOutput) :
  forall i acc,
  is_Some (scan_outputs tx i acc outputs) <->
  (forall out info, out ∈ outputs -> owns out info ->
     is_Some (UnblindOutput out (domain.BlindingKey info))).
Proof.
  unfold owned.
  induction outputs as [|first rest IH]; intros i acc; simpl.
  - split; [|eauto]. intros _ out info Hin. inversion Hin.
  - destruct (infoByScript !! hex.EncodeToString (transaction.OutScript first))
      as [info|] eqn:Hfirst.
    + destruct (UnblindOutput first (domain.BlindingKey info)) as [unc|]
        eqn:Hunblind.
      * rewrite IH. split.
        -- intros Hrest out info' Hin Hown.
           apply elem_of_cons in Hin as [->|Hin]; [|eauto].
           rewrite Hfirst in Hown. injection Hown as <-. rewrite Hunblind. eauto.
        -- intros Hall out info' Hin. apply Hall. by right.
      * split; [intros [? ?]; discriminate|].
        intros Hall. specialize (Hall first info (list_elem_of_here _ _) Hfirst).
        rewrite Hunblind in Hall. destruct Hall; discriminate.
    + rewrite IH. split.
      * intros Hrest out info' Hin Hown.
        apply elem_of_cons in Hin as [->|Hin]; [congruence|eauto].
      * intros Hall out info' Hin. apply Hall. by right.
Qed.

Lemma scanOutputs_stops (tx : transaction.Transaction)
    (outputs : list transaction.TxOutput) :
  forall i acc,
  scan_outputs tx i acc outputs = None ->
  exists out info,
    out ∈ outputs /\ owns out info /\
    UnblindOutput out (domain.BlindingKey info) = None.
Proof.
  unfold owned.
  induction outputs as [|first rest IH]; intros i acc Hscan; simpl in Hscan.
  - discriminate.
  - destruct (infoByScript !! hex.EncodeToString (transaction.OutScript first))
      as [info|] eqn:Hfirst.
    + destruct (UnblindOutput first (domain.BlindingKey info)) as [unc|]
        eqn:Hunblind.
      * destruct (IH _ _ Hscan) as (out & info' & Hin & Hrest).
        exists out, info'. split; [by right|exact Hrest].
      * exists first, info. split; [left|auto].
    + destruct (IH _ _ Hscan) as (out & info' & Hin & Hrest).
      exists out, info'. split; [by right|exact Hrest].
Qed.



(** X1: an error comes with nothing else and has one of two causes. When
    the call returns an error, both slices are empty, and either the error
    is the one of the parser, or the transaction parsed, one of its owned
    outputs does not unblind under the key of its entry and the error is
    the unblind error. *)
Theorem ExtractUnspents_error_cause (txHex : string)
    (unspents : list domain.Unspent) (spent : list domain.UnspentKey)
    (err : string) :
  extract txHex = Returns (unspents, spent, Some err) ->
  unspents = [] /\ spent = [] /\
  (NewTxFromHex txHex = Err err \/
   exists tx out info,
     NewTxFromHex txHex = Ok tx /\
     out ∈ transaction.Outputs tx /\ owns out info /\
     UnblindOutput out (domain.BlindingKey info) = None /\
     err = "unable to unblind output").
Proof.
  unfold ExtractUnspents. intros Hcall.
  destruct (NewTxFromHex txHex) as [tx|err'].
  - destruct (scan_inputs [] (transaction.Inputs tx)) as [keys|msg];
      [|discriminate].
    simpl in Hcall. unfold mbind, outcome_bind in Hcall.
    destruct (scan_outputs tx 0 [] (transaction.Outputs tx)) eqn:Houts;
      [discriminate|].
    injection Hcall as <- <- <-. split; [reflexivity|]. split; [reflexivity|].
    right. destruct (scanOutputs_stops _ _ _ _ Houts) as (out & info & H).
    exists tx, out, info. tauto.
  - injection Hcall as <- <- <-. auto.
Qed.

(** X2: on a transaction that parses, the call returns, with a result or an
    error, exactly when every input scans cleanly: each input carries no
    witness at all, or a witness of at least two elements whose second
    element leads [payment.FromPublicKey] to a script. On every other
    transaction the call panics. *)
Theorem ExtractUnspents_returns_iff (txHex : string)
    (tx : transaction.Transaction) :
  NewTxFromHex txHex = Ok tx ->
  ((exists r, extract txHex = Returns r) <->
   Forall clean (transaction.Inputs tx)).
Proof.
  intros Hparse. rewrite <- (scanInputs_returns_iff _ []).
  unfold ExtractUnspents. rewrite Hparse.
  destruct (scan_inputs [] (transaction.Inputs tx)) as [keys|msg]; simpl;
    unfold mbind, outcome_bind.
  - split; [eauto|]. intros _.
    destruct (scan_outputs tx 0 [] (transaction.Outputs tx)); eauto.
  - split; intros [? ?]; discriminate.
Qed.

(** X3: the spent keys of a successful call are the outpoints of the inputs
    that spend a coin of the wallet, in the order of the inputs: a key is
    returned exactly when some input has a witness of two elements at least
    and the script derived from the second one has an entry, and the keys
    form a sub-list of the outpoints of the inputs. *)
Theorem ExtractUnspents_spent_keys (txHex : string)
    (unspents : list domain.Unspent) (spent : list domain.UnspentKey) :
  extract txHex = Returns (unspents, spent, None) ->
  exists tx,
    NewTxFromHex txHex = Ok tx /\
    spent `sublist_of` (outpoint <$> transaction.Inputs tx) /\
    (forall k, k ∈ spent <->
       exists input,
         input ∈ transaction.Inputs tx /\ spends input /\ k = outpoint input).
Proof.
  intros Hcall.
  destruct (ExtractUnspents_success _ _ _ _ _ _ _ _ _ _ _ _ _ _ Hcall)
    as (tx & Hparse & Hins & _).
  destruct (scanInputs_added _ _ _ Hins) as (added & -> & Hsub & Hmem).
  exists tx. auto.
Qed.

(** X4: the call succeeds as soon as the transaction parses, every input
    scans cleanly and every owned output unblinds under the key of its
    entry; outputs and inputs that do not belong to the wallet cannot make
    it fail. *)
Theorem ExtractUnspents_succeeds (txHex : string)
    (tx : transaction.Transaction) :
  NewTxFromHex txHex = Ok tx ->
  Forall clean (transaction.Inputs tx) ->
  (forall out info, out ∈ transaction.Outputs tx -> owns out info ->
     is_Some (UnblindOutput out (domain.BlindingKey info))) ->
  exists unspents spent, extract txHex = Returns (unspents, spent, None).
Proof.
  intros Hparse Hclean Hunblind.
  apply (scanInputs_returns_iff _ []) in Hclean as [keys Hkeys].
  apply (scanOutputs_runs_iff tx _ 0%nat []) in Hunblind as [us Hus].
  exists us, keys. unfold ExtractUnspents. rewrite Hparse, Hkeys. simpl.
  unfold mbind, outcome_bind. rewrite Hus. reflexivity.
Qed.

(** X5: a successful call records every owned output and nothing else: the
    unspents are as many as the outputs whose script has an entry, and the
    output at position [i], when its script has an entry, unblinds and is
    returned as the record built for position [i]. *)
Theorem ExtractUnspents_records_owned_outputs (txHex : string)
    (tx : transaction.Transaction)
    (unspents : list domain.Unspent) (spent : list domain.UnspentKey) :
  NewTxFromHex txHex = Ok tx ->
  extract txHex = Returns (unspents, spent, None) ->
  length unspents = length (owned_outputs 0 (transaction.Outputs tx)) /\
  (forall (i : nat) out info,
     transaction.Outputs tx !! i = Some out -> owns out info ->
     exists unconfidential,
       UnblindOutput out (domain.BlindingKey info) = Some unconfidential /\
       new_unspent tx i out info unconfidential ∈ unspents).
Proof.
  intros Hparse Hcall.
  destruct (ExtractUnspents_success _ _ _ _ _ _ _ _ _ _ _ _ _ _ Hcall)
    as (tx' & Hparse' & _ & Houts).
  assert (tx' = tx) as -> by congruence.
  destruct (scanOutputs_added _ _ _ _ _ Houts) as (added & -> & Hall).
  simpl. split; [by eapply Forall2_length|].
  intros i out info Hi Hown.
  assert (Hin : (i, out, info) ∈ owned_outputs 0 (transaction.Outputs tx)).
  { apply ownedOutputs_elem. exists i. auto. }
  apply list_elem_of_lookup in Hin as [n Hn].
  destruct (Forall2_lookup_r _ _ _ _ _ Hall Hn) as (u & Hu & unc & Hunc & ->).
  exists unc. split; [exact Hunc|].
  apply list_elem_of_lookup. eauto.
Qed.


(** X7: with no owned script at all, a call that returns on a transaction
    that parses returns no unspent, no spent key and no error: without an
    entry nothing is unblinded and nothing can fail to. *)
Theorem ExtractUnspents_no_owned_scripts (txHex : string)
    (tx : transaction.Transaction)
    (unspents : list domain.Unspent) (spent : list domain.UnspentKey)
    (err : option string) :
  infoByScript = ∅ ->
  NewTxFromHex txHex = Ok tx ->
  extract txHex = Returns (unspents, spent, err) ->
  unspents = [] /\ spent = [] /\ err = None.
Proof.
  intros Hempty Hparse Hcall.
  assert (Hnone : forall out info, ~ owns out info).
  { intros out info. unfold owned. rewrite Hempty, lookup_empty. discriminate. }
  destruct err as [e|].
  - exfalso. unfold ExtractUnspents in Hcall. rewrite Hparse in Hcall.
    destruct (scan_inputs [] (transaction.Inputs tx)) as [keys|msg];
      [|discriminate].
    simpl in Hcall. unfold mbind, outcome_bind in Hcall.
    destruct (scan_outputs tx 0 [] (transaction.Outputs tx)) eqn:Houts;
      [discriminate|].
    destruct (scanOutputs_stops _ _ _ _ Houts) as (out & info & _ & Hown & _).
    by apply Hnone in Hown.
  - destruct (ExtractUnspents_success _ _ _ _ _ _ _ _ _ _ _ _ _ _ Hcall)
      as (tx' & _ & Hins & Houts).
    destruct (scanOutputs_added _ _ _ _ _ Houts) as (added & -> & Hall).
    destruct (scanInputs_added _ _ _ Hins) as (keys & -> & _ & Hmem).
    simpl. split; [|split; [|reflexivity]].
    + assert (Hno : owned_outputs 0 (transaction.Outputs tx') = []).
      { apply elem_of_nil_inv. intros [[j out] info] Hin.
        apply ownedOutputs_elem in Hin as (k & _ & _ & Hown).
        by apply Hnone in Hown. }
      rewrite Hno in Hall. by apply Forall2_nil_inv_r in Hall.
    + apply elem_of_nil_inv. intros k Hk.
      apply Hmem in Hk as (input & _ & (script & _ & Hsome) & _).
      rewrite Hempty, lookup_empty in Hsome. by destruct Hsome.
Qed.

End ExtractUnspentsLoops.


(** ** Hex keys *)

Lemma digit_inj (n m : nat) :
  (n < 16)%nat -> (m < 16)%nat -> hex.digit n = hex.digit m -> n = m.
Proof.
  intros Hn Hm.
  do 16 (destruct n as [|n]; [
    do 16 (destruct m as [|m]; [first [reflexivity|discriminate]|]); lia |]).
  lia.
Qed.

Lemma to_nat_inj (b1 b2 : byte) : Byte.to_nat b1 = Byte.to_nat b2 -> b1 = b2.
Proof.
  intros Heq. pose proof (Byte.of_to_nat b1) as H1.
  rewrite Heq, Byte.of_to_nat in H1. congruence.
Qed.

Lemma EncodeToString_cons (b : byte) (rest : list byte) :
  hex.EncodeToString (b :: rest)
  = String (hex.digit (Byte.to_nat b / 16)%nat)
      (String (hex.digit (Byte.to_nat b mod 16)%nat)
         (hex.EncodeToString rest)).
Proof. reflexivity. Qed.

(** Two byte strings with the same hex encoding are the same: a script is
    looked up under a key of its own. *)
Lemma EncodeToString_inj (s1 s2 : list byte) :
  hex.EncodeToString s1 = hex.EncodeToString s2 -> s1 = s2.
Proof.
  revert s2. induction s1 as [|b1 s1 IH]; intros [|b2 s2] Heq;
    rewrite ?EncodeToString_cons in Heq; try discriminate; [reflexivity|].
  pose proof (Byte.to_nat_bounded b1) as Hb1.
  pose proof (Byte.to_nat_bounded b2) as Hb2.
  pose proof (Nat.div_mod_eq (Byte.to_nat b1) 16) as Hsplit1.
  pose proof (Nat.div_mod_eq (Byte.to_nat b2) 16) as Hsplit2.
  assert (Hh1 : (Byte.to_nat b1 / 16 < 16)%nat)
    by (apply Nat.Div0.div_lt_upper_bound; lia).
  assert (Hh2 : (Byte.to_nat b2 / 16 < 16)%nat)
    by (apply Nat.Div0.div_lt_upper_bound; lia).
  assert (Hl1 : (Byte.to_nat b1 mod 16 < 16)%nat)
    by (apply Nat.mod_upper_bound; lia).
  assert (Hl2 : (Byte.to_nat b2 mod 16 < 16)%nat)
    by (apply Nat.mod_upper_bound; lia).
  remember (Byte.to_nat b1 / 16)%nat as h1.
  remember (Byte.to_nat b1 mod 16)%nat as l1.
  remember (Byte.to_nat b2 / 16)%nat as h2.
  remember (Byte.to_nat b2 mod 16)%nat as l2.
  injection Heq as Hhigh Hlow Hrest.
  apply digit_inj in Hhigh; [|assumption|assumption].
  apply digit_inj in Hlow; [|assumption|assumption].
  f_equal; [|by apply IH].
  apply to_nat_inj. congruence.
Qed.

Section ExtractUnspentsOwnership.

Variables PublicKey Network : Type.
Variable NewTxFromHex : string -> result transaction.Transaction.
Variable TxHash : transaction.Transaction -> string.
Variable ParsePubKey : list byte -> option PublicKey.
Variable FromPublicKey : option PublicKey -> Network -> outcome (list byte).
Variable TxIDFromBytes : list byte -> string.
Variable CommitmentFromBytes : list byte -> string.
Variables UnblindOutput UnblindOutput' :
  transaction.TxOutput -> list byte -> option transactionutil.UnblindedResult.
Variable infoByScript : gmap string domain.AddressInfo.
Variable network : Network.

Local Abbreviation owns := (owned infoByScript).
Local Abbreviation extract_with unblind :=
  (ExtractUnspents PublicKey Network NewTxFromHex TxHash ParsePubKey
     FromPublicKey TxIDFromBytes CommitmentFromBytes unblind
     infoByScript network).

Lemma scanOutputs_same_unblinding (tx : transaction.Transaction)
    (outputs : list transaction.TxOutput) :
  (forall out info, out ∈ outputs -> owns out info ->
     UnblindOutput out (domain.BlindingKey info)
     = UnblindOutput' out (domain.BlindingKey info)) ->
  forall i acc,
  scanOutputs TxHash CommitmentFromBytes UnblindOutput infoByScript
    tx i acc outputs
  = scanOutputs TxHash CommitmentFromBytes UnblindOutput' infoByScript
      tx i acc outputs.
Proof.
  unfold owned.
  induction outputs as [|first rest IH]; intros Hsame i acc; simpl;
    [reflexivity|].
  destruct (infoByScript !! hex.EncodeToString (transaction.OutScript first))
    as [info|] eqn:Hfirst.
  - rewrite <- (Hsame first info (list_elem_of_here _ _) Hfirst).
    destruct (UnblindOutput first (domain.BlindingKey info)); [|reflexivity].
    apply IH. intros out info' Hin. apply Hsame. by right.
  - apply IH. intros out info' Hin. apply Hsame. by right.
Qed.

(** X8: the call unblinds an output only when its script has an entry, and
    only under the blinding key of that entry: two unblinders that agree on
    the owned outputs of the transaction under those keys give the same
    result, however they differ on every other output and key. *)
Theorem ExtractUnspents_unblinds_owned_only (txHex : string)
    (tx : transaction.Transaction) :
  NewTxFromHex txHex = Ok tx ->
  (forall out info, out ∈ transaction.Outputs tx -> owns out info ->
     UnblindOutput out (domain.BlindingKey info)
     = UnblindOutput' out (domain.BlindingKey info)) ->
  extract_with UnblindOutput txHex = extract_with UnblindOutput' txHex.
Proof.
  intros Hparse Hsame. unfold ExtractUnspents. rewrite Hparse.
  destruct (scanInputs _ _ _ _ _ _ _ [] (transaction.Inputs tx)); simpl;
    [|reflexivity].
  unfold mbind, outcome_bind.
  rewrite (scanOutputs_same_unblinding tx _ Hsame). reflexivity.
Qed.

(** X9: ownership goes by the exact bytes of the script. When the map holds
    the entry of a single script, every record of a successful call pays
    that script, byte for byte, and carries the address of that entry. *)
Theorem ExtractUnspents_single_script (txHex : string)
    (script : list byte) (info : domain.AddressInfo)
    (unspents : list domain.Unspent) (spent : list domain.UnspentKey)
    (u : domain.Unspent) :
  infoByScript = {[ hex.EncodeToString script := info ]} ->
  extract_with UnblindOutput txHex = Returns (unspents, spent, None) ->
  u ∈ unspents ->
  domain.ScriptPubKey u = script /\
  domain.UnspentAddress u = domain.Address info.
Proof.
  intros Hmap Hcall Hin.
  destruct (ExtractUnspents_success _ _ _ _ _ _ _ _ _ _ _ _ _ _ Hcall)
    as (tx & _ & _ & Houts).
  destruct (scanOutputs_origin _ _ _ _ _ _ _ _ _ _ Houts Hin)
    as [Hnil|(j & out & info' & unc & _ & Hown & _ & ->)].
  - inversion Hnil.
  - unfold owned in Hown. rewrite Hmap in Hown.
    apply lookup_singleton_Some in Hown as [Hkey <-].
    apply EncodeToString_inj in Hkey. simpl. auto.
Qed.

End ExtractUnspentsOwnership.


(** ** The wrapper ExtractBlindingData *)

(** [ExtractBlindingData] is the wrapper around the extractor of the wallet
    package. *)
Lemma ExtractBlindingData_with
    (NewPsetFromBase64 : string -> result wallet.Pset)
    (OutpointKey : transaction.TxInput -> string)
    (UnblindOutput :
       transaction.TxOutput -> list byte ->
       option transactionutil.UnblindedResult) :
  ExtractBlindingData NewPsetFromBase64 OutpointKey UnblindOutput
  = ExtractBlindingDataWith
      (wallet.ExtractBlindingDataFromTx NewPsetFromBase64 OutpointKey
         UnblindOutput).
Proof. reflexivity. Qed.

Lemma copyInOrder_lookup (entries : list (nat * wallet.BlindingData)) :
  forall (acc : gmap nat BlindingData) (k : nat),
  NoDup entries.*1 ->
  foldl (fun acc e => <[e.1 := toBlindingData e.2]> acc) acc entries !! k
  = match (list_to_map entries : gmap nat wallet.BlindingData) !! k with
    | Some d => Some d
    | None => acc !! k
    end.
Proof.
  induction entries as [|[i d] rest IH]; intros acc k Hnodup; simpl.
  - rewrite lookup_empty. reflexivity.
  - rewrite fmap_cons in Hnodup. apply NoDup_cons in Hnodup as [Hfresh Hrest].
    rewrite IH by exact Hrest. unfold toBlindingData.
    destruct (decide (k = i)) as [->|Hne].
    + rewrite !lookup_insert_eq.
      rewrite (not_elem_of_list_to_map_1 rest i) by exact Hfresh.
      reflexivity.
    + rewrite !(lookup_insert_ne _ i k) by congruence. reflexivity.
Qed.

(** X10: the copy loop of the wrapper does not depend on the order in which
    [range] hands out the entries of the map: whatever the order, the map
    it builds holds the entries of the map it reads, no more and no less,
    and is the one the model computes. *)
Theorem convertBlindingData_any_order (m : gmap nat wallet.BlindingData)
    (entries : list (nat * wallet.BlindingData)) :
  entries ≡ₚ map_to_list m ->
  copyInOrder entries = m /\ convertBlindingData m = copyInOrder entries.
Proof.
  intros Hperm.
  assert (Hnodup : NoDup entries.*1).
  { rewrite Hperm. apply NoDup_fst_map_to_list. }
  assert (Hcopy : copyInOrder entries = m).
  { apply map_eq. intros k. unfold copyInOrder.
    rewrite copyInOrder_lookup by exact Hnodup.
    rewrite (list_to_map_proper entries (map_to_list m)) by assumption.
    rewrite list_to_map_to_list, lookup_empty.
    destruct (m !! k) eqn:Hk; symmetry; exact Hk. }
  split; [exact Hcopy|]. rewrite Hcopy. apply convertBlindingData_id.
Qed.

(** X11: the wrapper adds nothing to what the extractor returns and hides
    partial results. When the extractor returns an error, the wrapper
    returns that error with both maps nil, whatever maps came with it;
    when it returns none, the wrapper returns maps with the same entries,
    a nil map staying nil. *)
Theorem ExtractBlindingDataWith_result
    (ExtractBlindingDataFromTx :
       string -> gmap string (list byte) -> gmap string (list byte) ->
       wallet.blindingMaps)
    (psetBase64 : string) (inKeys outKeys : gmap string (list byte))
    (inData outData : option (gmap nat wallet.BlindingData))
    (err : option string) :
  ExtractBlindingDataFromTx psetBase64 inKeys outKeys = (inData, outData, err) ->
  ExtractBlindingDataWith ExtractBlindingDataFromTx psetBase64 inKeys outKeys
  = match err with
    | Some e => (None, None, Some e)
    | None => (inData, outData, None)
    end.
Proof.
  intros Hcall. unfold ExtractBlindingDataWith. rewrite Hcall.
  destruct err as [e|]; [reflexivity|].
  destruct inData as [inMap|], outData as [outMap|];
    rewrite ?convertBlindingData_id; reflexivity.
Qed.

(** ** Unspents.ToUtxos *)

Section ToUtxosProperties.

Variable Utxo : Type.
Variable ToUtxo : domain.Unspent -> Utxo.

(** The loop, started at the end of the part already filled, fills the
    rest of the slice and never writes past its end. *)
Lemma fillUtxos_fills (rest : list domain.Unspent) :
  forall (filled : list (option Utxo)),
  fillUtxos Utxo ToUtxo (length filled) rest
    (filled ++ replicate (length rest) None)
  = Returns (filled ++ ((fun x => Some (ToUtxo x)) <$> rest)).
Proof.
  induction rest as [|x rest IH]; intros filled.
  - reflexivity.
  - cbn [length replicate fillUtxos]. unfold store.
    assert (Hlt : (length filled
                   <? length (filled ++ None :: replicate (length rest) None))%nat
                  = true).
    { apply Nat.ltb_lt. rewrite length_app. simpl. lia. }
    rewrite Hlt, insert_app_r_alt by lia. rewrite Nat.sub_diag.
    pose proof (IH (filled ++ [Some (ToUtxo x)])) as Hrest.
    rewrite length_app, <- !app_assoc in Hrest. simpl in Hrest.
    replace (length filled + 1)%nat with (S (length filled)) in Hrest by lia.
    simpl. unfold mbind, outcome_bind. exact Hrest.
Qed.

(** X12: [ToUtxos] returns a slice as long as the one it is given, whose
    slot [i] holds the conversion of the unspent at [i]: no slot is left
    nil, the order is kept, and no write falls outside the slice. *)
Theorem ToUtxos_converts_each (u : list domain.Unspent) :
  exists l,
    ToUtxos Utxo ToUtxo u = Returns l /\
    length l = length u /\
    (forall i, l !! i = (fun x => Some (ToUtxo x)) <$> u !! i).
Proof.
  exists ((fun x => Some (ToUtxo x)) <$> u). split; [|split].
  - unfold ToUtxos. apply (fillUtxos_fills u []).
  - apply length_fmap.
  - intros i. apply list_lookup_fmap.
Qed.

End ToUtxosProperties.


(** ** The further properties on the sample data *)

Lemma ExtractUnspents_error_cause_witness :
  further.ExtractUnspents "0202"
  = Returns ([], [], Some "unable to unblind output") /\
  (further.NewTxFromHex "0202" = Err "unable to unblind output" \/
   exists tx out info,
     further.NewTxFromHex "0202" = Ok tx /\
     out ∈ transaction.Outputs tx /\ owned sample.infoByScript out info /\
     sample.UnblindOutput out (domain.BlindingKey info) = None /\
     "unable to unblind output" = "unable to unblind output").
Proof.
  split; [reflexivity|].
  apply (ExtractUnspents_error_cause (list byte) unit further.NewTxFromHex
           sample.TxHash sample.ParsePubKey sample.FromPublicKey
           sample.TxIDFromBytes sample.CommitmentFromBytes
           sample.UnblindOutput sample.infoByScript tt "0202" [] []
           "unable to unblind output").
  reflexivity.
Defined.

Lemma ExtractUnspents_returns_iff_witness :
  ((exists r, further.ExtractUnspents "0200" = Returns r) <->
   Forall (scansCleanly (list byte) unit sample.ParsePubKey
             sample.FromPublicKey tt)
     (transaction.Inputs sample.txOwned)) /\
  ((exists r, further.ExtractUnspents "0201" = Returns r) <->
   Forall (scansCleanly (list byte) unit sample.ParsePubKey
             sample.FromPublicKey tt)
     (transaction.Inputs sample.txShortWitness)).
Proof.
  split.
  - apply (ExtractUnspents_returns_iff (list byte) unit further.NewTxFromHex
             sample.TxHash sample.ParsePubKey sample.FromPublicKey
             sample.TxIDFromBytes sample.CommitmentFromBytes
             sample.UnblindOutput sample.infoByScript tt "0200"
             sample.txOwned).
    reflexivity.
  - apply (ExtractUnspents_returns_iff (list byte) unit further.NewTxFromHex
             sample.TxHash sample.ParsePubKey sample.FromPublicKey
             sample.TxIDFromBytes sample.CommitmentFromBytes
             sample.UnblindOutput sample.infoByScript tt "0201"
             sample.txShortWitness).
    reflexivity.
Defined.

Lemma ExtractUnspents_spent_keys_witness :
  exists unspents spent tx,
    further.ExtractUnspents "0200" = Returns (unspents, spent, None) /\
    further.NewTxFromHex "0200" = Ok tx /\
    spent `sublist_of`
      (outpointOf sample.TxIDFromBytes <$> transaction.Inputs tx) /\
    (forall k, k ∈ spent <->
       exists input,
         input ∈ transaction.Inputs tx /\
         spendsOwned (list byte) unit sample.ParsePubKey sample.FromPublicKey
           sample.infoByScript tt input /\
         k = outpointOf sample.TxIDFromBytes input).
Proof.
  eexists _, _.
  destruct (ExtractUnspents_spent_keys (list byte) unit further.NewTxFromHex
              sample.TxHash sample.ParsePubKey sample.FromPublicKey
              sample.TxIDFromBytes sample.CommitmentFromBytes
              sample.UnblindOutput sample.infoByScript tt "0200" _ _ eq_refl)
    as (tx & Hparse & Hsub & Hmem).
  exists tx. split; [reflexivity|]. auto.
Defined.

Lemma ExtractUnspents_succeeds_witness :
  exists unspents spent,
    further.ExtractUnspents "0200" = Returns (unspents, spent, None).
Proof.
  apply (ExtractUnspents_succeeds (list byte) unit further.NewTxFromHex
           sample.TxHash sample.ParsePubKey sample.FromPublicKey
           sample.TxIDFromBytes sample.CommitmentFromBytes
           sample.UnblindOutput sample.infoByScript tt "0200" sample.txOwned).
  - reflexivity.
  - constructor; [|constructor]. right. exists sample.ownedScript.
    exists sample.sig, sample.pubkey, []. split; reflexivity.
  - intros out info Hin Hown. unfold owned in Hown.
    apply elem_of_cons in Hin as [->|Hin].
    { vm_compute in Hown. discriminate. }
    apply list_elem_of_singleton in Hin as ->.
    vm_compute in Hown. injection Hown as <-. vm_compute. eauto.
Defined.

Lemma ExtractUnspents_records_owned_outputs_witness :
  exists unspents spent,
    further.ExtractUnspents "0200" = Returns (unspents, spent, None) /\
    length unspents = 1%nat /\
    exists unconfidential,
      sample.UnblindOutput (sample.output sample.ownedScript sample.blindingKey)
        sample.blindingKey = Some unconfidential /\
      newUnspent sample.TxHash sample.CommitmentFromBytes sample.txOwned 1
        (sample.output sample.ownedScript sample.blindingKey) sample.info
        unconfidential ∈ unspents.
Proof.
  eexists _, _. split; [reflexivity|].
  destruct (ExtractUnspents_records_owned_outputs (list byte) unit
              further.NewTxFromHex sample.TxHash sample.ParsePubKey
              sample.FromPublicKey sample.TxIDFromBytes
              sample.CommitmentFromBytes sample.UnblindOutput
              sample.infoByScript tt "0200" sample.txOwned _ _
              eq_refl eq_refl) as [Hlen Hall].
  split; [exact Hlen|].
  apply (Hall 1%nat (sample.output sample.ownedScript sample.blindingKey)
           sample.info); reflexivity.
Defined.


Lemma ExtractUnspents_no_owned_scripts_witness :
  exists unspents spent err,
    further.ExtractUnspentsWith sample.UnblindOutput ∅ "0202"
    = Returns (unspents, spent, err) /\
    unspents = [] /\ spent = [] /\ err = None.
Proof.
  eexists _, _, _. split; [reflexivity|].
  apply (ExtractUnspents_no_owned_scripts (list byte) unit
           further.NewTxFromHex sample.TxHash sample.ParsePubKey
           sample.FromPublicKey sample.TxIDFromBytes
           sample.CommitmentFromBytes sample.UnblindOutput
           ∅ tt "0202" further.txUnblindFails _ _ _
           eq_refl eq_refl eq_refl).
Defined.

Lemma ExtractUnspents_unblinds_owned_only_witness :
  further.ExtractUnspentsWith sample.UnblindOutput sample.infoByScript "0200"
  = further.ExtractUnspentsWith further.UnblindAnything sample.infoByScript
      "0200" /\
  sample.UnblindOutput (sample.output sample.foreignScript []) [x11]
  <> further.UnblindAnything (sample.output sample.foreignScript []) [x11].
Proof.
  split; [|discriminate].
  apply (ExtractUnspents_unblinds_owned_only (list byte) unit
           further.NewTxFromHex sample.TxHash sample.ParsePubKey
           sample.FromPublicKey sample.TxIDFromBytes
           sample.CommitmentFromBytes sample.UnblindOutput
           further.UnblindAnything sample.infoByScript tt "0200"
           sample.txOwned).
  - reflexivity.
  - intros out info Hin Hown. unfold owned in Hown.
    apply elem_of_cons in Hin as [->|Hin].
    { vm_compute in Hown. discriminate. }
    apply list_elem_of_singleton in Hin as ->. reflexivity.
Defined.

Lemma ExtractUnspents_single_script_witness :
  exists unspents spent u,
    further.ExtractUnspents "0200" = Returns (unspents, spent, None) /\
    u ∈ unspents /\
    domain.ScriptPubKey u = sample.ownedScript /\
    domain.UnspentAddress u = "el1qqsample".
Proof.
  eexists _, _, _. split; [reflexivity|]. split; [left|].
  apply (ExtractUnspents_single_script (list byte) unit
           further.NewTxFromHex sample.TxHash sample.ParsePubKey
           sample.FromPublicKey sample.TxIDFromBytes
           sample.CommitmentFromBytes sample.UnblindOutput
           sample.infoByScript tt "0200" sample.ownedScript sample.info
           _ _ _ eq_refl eq_refl (list_elem_of_here _ _)).
Defined.

Lemma convertBlindingData_any_order_witness :
  copyInOrder [(0%nat, further.data 30000); (2%nat, further.data 70000)]
  = further.dataMap /\
  copyInOrder [(2%nat, further.data 70000); (0%nat, further.data 30000)]
  = further.dataMap.
Proof.
  split.
  - apply (convertBlindingData_any_order further.dataMap
             [(0%nat, further.data 30000); (2%nat, further.data 70000)]).
    vm_compute. apply perm_swap.
  - apply (convertBlindingData_any_order further.dataMap
             [(2%nat, further.data 70000); (0%nat, further.data 30000)]).
    vm_compute. reflexivity.
Defined.

Lemma ExtractBlindingDataWith_result_witness :
  ExtractBlindingDataWith further.failingExtractor "cHNldP8=" ∅ ∅
  = (None, None, Some "unable to unblind output").
Proof.
  apply (ExtractBlindingDataWith_result further.failingExtractor "cHNldP8="
           ∅ ∅ (Some further.dataMap) None
           (Some "unable to unblind output")).
  reflexivity.
Defined.


(** ** ExtractUnspents across calls *)

Section ExtractUnspentsAcrossCalls.

Variable World : Type.
Variables PublicKey Network : Type.

Variable NewTxFromHexIn :
  string -> World -> result transaction.Transaction * World.
Variable TxHashIn : transaction.Transaction -> World -> string * World.
Variable ParsePubKeyIn : list byte -> World -> option PublicKey * World.
Variable FromPublicKeyIn :
  option PublicKey -> Network -> World -> outcome (list byte) * World.
Variable TxIDFromBytesIn : list byte -> World -> string * World.
Variable CommitmentFromBytesIn : list byte -> World -> string * World.
Variable UnblindOutputIn :
  transaction.TxOutput -> list byte -> World ->
  option transactionutil.UnblindedResult * World.

Variable NewTxFromHex : string -> result transaction.Transaction.
Variable TxHash : transaction.Transaction -> string.
Variable ParsePubKey : list byte -> option PublicKey.
Variable FromPublicKey : option PublicKey -> Network -> outcome (list byte).
Variable TxIDFromBytes : list byte -> string.
Variable CommitmentFromBytes : list byte -> string.
Variable UnblindOutput :
  transaction.TxOutput -> list byte -> option transactionutil.UnblindedResult.

Variable network : Network.

(** The collaborators compute functions of their arguments: they may keep
    a state of their own, which what they return does not depend on. *)
Hypothesis NewTxFromHex_function : functionOf World NewTxFromHexIn NewTxFromHex.
Hypothesis TxHash_function : functionOf World TxHashIn TxHash.
Hypothesis ParsePubKey_function : functionOf World ParsePubKeyIn ParsePubKey.
Hypothesis FromPublicKey_function :
  functionOf2 World FromPublicKeyIn FromPublicKey.
Hypothesis TxIDFromBytes_function :
  functionOf World TxIDFromBytesIn TxIDFromBytes.
Hypothesis CommitmentFromBytes_function :
  functionOf World CommitmentFromBytesIn CommitmentFromBytes.
Hypothesis UnblindOutput_function :
  functionOf2 World UnblindOutputIn UnblindOutput.

Local Abbreviation scan_input_in :=
  (scanInputIn World PublicKey Network ParsePubKeyIn FromPublicKeyIn
     TxIDFromBytesIn network).
Local Abbreviation scan_inputs_in :=
  (scanInputsIn World PublicKey Network ParsePubKeyIn FromPublicKeyIn
     TxIDFromBytesIn network).
Local Abbreviation scan_outputs_in :=
  (scanOutputsIn World TxHashIn CommitmentFromBytesIn UnblindOutputIn).
Local Abbreviation extract_in :=
  (ExtractUnspentsIn World PublicKey Network NewTxFromHexIn TxHashIn
     ParsePubKeyIn FromPublicKeyIn TxIDFromBytesIn CommitmentFromBytesIn
     UnblindOutputIn network).
Local Abbreviation replay_in :=
  (replay World PublicKey Network NewTxFromHexIn TxHashIn
     ParsePubKeyIn FromPublicKeyIn TxIDFromBytesIn CommitmentFromBytesIn
     UnblindOutputIn network).
Local Abbreviation scan_input infoByScript :=
  (scanInput PublicKey Network ParsePubKey FromPublicKey TxIDFromBytes
     infoByScript network).
Local Abbreviation scan_inputs infoByScript :=
  (scanInputs PublicKey Network ParsePubKey FromPublicKey TxIDFromBytes
     infoByScript network).
Local Abbreviation scan_outputs infoByScript :=
  (scanOutputs TxHash CommitmentFromBytes UnblindOutput infoByScript).
Local Abbreviation extract infoByScript :=
  (ExtractUnspents PublicKey Network NewTxFromHex TxHash ParsePubKey
     FromPublicKey TxIDFromBytes CommitmentFromBytes UnblindOutput
     infoByScript network).

(** A call to a collaborator returns the value of its function and leaves
    the map and the two slices as they are. *)
Lemma call_function {A : Type} (c : World -> A * World) (v : A)
    (p : process World) :
  (forall w, (c w).1 = v) ->
  exists p',
    call World c p = (Returns v, p') /\
    ownedScripts World p' = ownedScripts World p /\
    unspentsToAdd World p' = unspentsToAdd World p /\
    unspentsToSpend World p' = unspentsToSpend World p.
Proof.
  intros Hv. unfold call. specialize (Hv (world World p)).
  destruct (c (world World p)) as [a w]. simpl in Hv. subst a.
  eexists. split; [reflexivity|]. simpl. auto.
Qed.

Lemma callOutcome_function {A : Type} (c : World -> outcome A * World)
    (v : outcome A) (p : process World) :
  (forall w, (c w).1 = v) ->
  exists p',
    callOutcome World c p = (v, p') /\
    ownedScripts World p' = ownedScripts World p /\
    unspentsToAdd World p' = unspentsToAdd World p /\
    unspentsToSpend World p' = unspentsToSpend World p.
Proof.
  intros Hv. unfold callOutcome. specialize (Hv (world World p)).
  destruct (c (world World p)) as [a w]. simpl in Hv. subst a.
  eexists. split; [reflexivity|]. simpl. auto.
Qed.

(** One iteration over an input, run in a state, does what the function
    [scanInput] does to the slice of spent keys of that state. *)
Lemma scanInputIn_refines (input : transaction.TxInput) (p : process World) :
  exists o p',
    scan_input_in input p = (o, p') /\
    ownedScripts World p' = ownedScripts World p /\
    unspentsToAdd World p' = unspentsToAdd World p /\
    match scan_input (ownedScripts World p) (unspentsToSpend World p) input with
    | Returns keys => o = Returns tt /\ unspentsToSpend World p' = keys
    | Panics msg => o = Panics msg
    end.
Proof.
  unfold scanInputIn, scanInput, mbind, outcome_bind.
  destruct (0 <? length (transaction.Witness input))%nat;
    [|eexists _, _; split; [reflexivity|]; auto].
  destruct (transaction.Witness input !! 1%nat) as [w1|];
    [|eexists _, _; split; [reflexivity|]; auto].
  unfold bind at 1.
  destruct (call_function (ParsePubKeyIn w1) (ParsePubKey w1) p
              (ParsePubKey_function w1)) as (p1 & -> & Ho1 & Ha1 & Hs1).
  unfold bind at 1.
  destruct (callOutcome_function
              (FromPublicKeyIn (ParsePubKey w1) network)
              (FromPublicKey (ParsePubKey w1) network) p1
              (FromPublicKey_function (ParsePubKey w1) network))
    as (p2 & -> & Ho2 & Ha2 & Hs2).
  destruct (FromPublicKey (ParsePubKey w1) network) as [script|msg];
    [|eexists _, _; split; [reflexivity|]; repeat split; congruence].
  unfold bind at 1, lookupScript at 1. rewrite Ho2, Ho1.
  destruct (ownedScripts World p !! hex.EncodeToString script) as [info|];
    [|eexists _, _; split; [reflexivity|]; repeat split; congruence].
  unfold bind at 1.
  destruct (call_function
              (TxIDFromBytesIn (transaction.Hash input))
              (TxIDFromBytes (transaction.Hash input)) p2
              (TxIDFromBytes_function (transaction.Hash input)))
    as (p3 & -> & Ho3 & Ha3 & Hs3).
  unfold bind, getToSpend, setToSpend.
  eexists _, _. split; [reflexivity|]. simpl. repeat split; congruence.
Qed.

Lemma scanInputsIn_refines (inputs : list transaction.TxInput) :
  forall p : process World,
  exists o p',
    scan_inputs_in inputs p = (o, p') /\
    ownedScripts World p' = ownedScripts World p /\
    unspentsToAdd World p' = unspentsToAdd World p /\
    match scan_inputs (ownedScripts World p) (unspentsToSpend World p)
            inputs with
    | Returns keys => o = Returns tt /\ unspentsToSpend World p' = keys
    | Panics msg => o = Panics msg
    end.
Proof.
  induction inputs as [|input rest IH]; intros p; simpl.
  - eexists _, _. split; [reflexivity|]. auto.
  - destruct (scanInputIn_refines input p) as (o1 & p1 & E1 & Ho & Ha & Hstep).
    unfold bind, mbind, outcome_bind. rewrite E1.
    destruct (scan_input (ownedScripts World p) (unspentsToSpend World p) input)
      as [keys|msg].
    + destruct Hstep as [-> Hkeys].
      destruct (IH p1) as (o2 & p2 & E2 & Ho' & Ha' & Hrest).
      rewrite Ho, Hkeys in Hrest.
      exists o2, p2. split; [exact E2|].
      split; [congruence|]. split; [congruence|]. exact Hrest.
    + subst o1. eexists _, _. split; [reflexivity|]. auto.
Qed.

Lemma scanOutputsIn_refines (tx : transaction.Transaction)
    (outputs : list transaction.TxOutput) :
  forall (i : nat) (p : process World),
  exists o p',
    scan_outputs_in tx i outputs p = (o, p') /\
    ownedScripts World p' = ownedScripts World p /\
    unspentsToSpend World p' = unspentsToSpend World p /\
    match scan_outputs (ownedScripts World p) tx i (unspentsToAdd World p)
            outputs with
    | Some unspents => o = Returns true /\ unspentsToAdd World p' = unspents
    | None => o = Returns false
    end.
Proof.
  induction outputs as [|out rest IH]; intros i p; simpl.
  - eexists _, _. split; [reflexivity|]. auto.
  - unfold bind at 1, lookupScript at 1.
    destruct (ownedScripts World p
                !! hex.EncodeToString (transaction.OutScript out)) as [info|];
      [|apply IH].
    unfold bind at 1.
    destruct (call_function
                (UnblindOutputIn out (domain.BlindingKey info))
                (UnblindOutput out (domain.BlindingKey info)) p
                (UnblindOutput_function out (domain.BlindingKey info)))
      as (p1 & -> & Ho1 & Ha1 & Hs1).
    destruct (UnblindOutput out (domain.BlindingKey info)) as [unc|];
      [|eexists _, _; split; [reflexivity|]; repeat split; congruence].
    unfold bind at 1.
    destruct (call_function (TxHashIn tx) (TxHash tx) p1 (TxHash_function tx))
      as (p2 & -> & Ho2 & Ha2 & Hs2).
    unfold bind at 1.
    destruct (call_function
                (CommitmentFromBytesIn (transaction.Value out))
                (CommitmentFromBytes (transaction.Value out)) p2
                (CommitmentFromBytes_function (transaction.Value out)))
      as (p3 & -> & Ho3 & Ha3 & Hs3).
    unfold bind at 1.
    destruct (call_function
                (CommitmentFromBytesIn (transaction.Asset out))
                (CommitmentFromBytes (transaction.Asset out)) p3
                (CommitmentFromBytes_function (transaction.Asset out)))
      as (p4 & -> & Ho4 & Ha4 & Hs4).
    unfold bind at 1, getToAdd at 1. unfold bind at 1, setToAdd at 1.
    match goal with
    | |- context [scan_outputs_in tx (S i) rest ?q] =>
        destruct (IH (S i) q) as (o & p5 & E & Ho & Hs & Hrest)
    end.
    simpl in Ho, Hs, Hrest.
    replace (ownedScripts World p4) with (ownedScripts World p) in Hrest
      by congruence.
    replace (unspentsToAdd World p4) with (unspentsToAdd World p) in Hrest
      by congruence.
    exists o, p5. split; [exact E|]. unfold newUnspent.
    split; [congruence|]. split; [congruence|]. exact Hrest.
Qed.

(** The run of the call returns what the function [ExtractUnspents]
    computes from the hex string and the map of the state it starts in,
    whatever the collaborators kept and the slice variables held, and it
    leaves the map as it found it. *)
Lemma ExtractUnspentsIn_refines (txHex : string) (p : process World) :
  exists p',
    extract_in txHex p = (extract (ownedScripts World p) txHex, p') /\
    ownedScripts World p' = ownedScripts World p.
Proof.
  unfold ExtractUnspentsIn, ExtractUnspents, mbind, outcome_bind.
  unfold bind at 1.
  destruct (call_function (NewTxFromHexIn txHex) (NewTxFromHex txHex) p
              (NewTxFromHex_function txHex)) as (p1 & -> & Ho1 & Ha1 & Hs1).
  destruct (NewTxFromHex txHex) as [tx|err];
    [|eexists; split; [reflexivity|exact Ho1]].
  unfold bind at 1, setToAdd at 1. unfold bind at 1, setToSpend at 1.
  unfold bind at 1.
  match goal with
  | |- context [scan_inputs_in (transaction.Inputs tx) ?q] =>
      destruct (scanInputsIn_refines (transaction.Inputs tx) q)
        as (o2 & p2 & -> & Ho2 & Ha2 & Hins)
  end.
  simpl in Ho2, Ha2, Hins. rewrite Ho1 in Hins.
  destruct (scan_inputs (ownedScripts World p) [] (transaction.Inputs tx))
    as [keys|msg].
  - destruct Hins as [-> Hkeys]. unfold bind at 1.
    destruct (scanOutputsIn_refines tx (transaction.Outputs tx) 0 p2)
      as (o3 & p3 & -> & Ho3 & Hs3 & Houts).
    rewrite Ho2, Ho1, Ha2 in Houts.
    destruct (scan_outputs (ownedScripts World p) tx 0 []
                (transaction.Outputs tx)) as [unspents|].
    + destruct Houts as [-> Hadd].
      unfold bind, getToAdd, getToSpend, ret.
      exists p3. split; [|congruence]. rewrite Hadd, Hs3, Hkeys. reflexivity.
    + subst o3. exists p3. split; [reflexivity|congruence].
  - subst o2. exists p2. split; [reflexivity|congruence].
Qed.

(** C8: two calls with the same hex string and the same map of owned
    scripts, the second made in the state the first one left, return the
    same unspents, the same spent keys and the same error (or panic
    alike). What they return is computed from the arguments alone: the
    slices are made afresh in each call and the collaborators are
    functions of their arguments, so a replay adds no entry and repeats
    none, and the map is left as it was. *)
Theorem ExtractUnspents_replay (txHex : string) (p p2 : process World)
    (first second : outcome extracted) :
  replay_in txHex p = ((first, second), p2) ->
  second = first /\
  first = extract (ownedScripts World p) txHex /\
  ownedScripts World p2 = ownedScripts World p.
Proof.
  unfold replay. intros Hreplay.
  destruct (ExtractUnspentsIn_refines txHex p) as (p1 & Hfirst & Hmap1).
  rewrite Hfirst in Hreplay.
  destruct (ExtractUnspentsIn_refines txHex p1) as (p2' & Hsecond & Hmap2).
  rewrite Hsecond in Hreplay. injection Hreplay as <- <- <-.
  rewrite Hmap1 in Hmap2 |- *. auto.
Qed.

End ExtractUnspentsAcrossCalls.

Lemma ExtractUnspents_replay_witness :
  (counted.replay "0200" counted.start).1.2
  = (counted.replay "0200" counted.start).1.1 /\
  (counted.replay "0200" counted.start).1.1 = sample.ExtractUnspents "0200" /\
  ownedScripts nat (counted.replay "0200" counted.start).2
  = sample.infoByScript /\
  world nat (counted.replay "0200" counted.start).2 = 16%nat /\
  unspentsToSpend nat counted.start = [counted.staleKey; counted.staleKey].
Proof.
  assert (Hrun : counted.replay "0200" counted.start
                 = (((counted.replay "0200" counted.start).1.1,
                     (counted.replay "0200" counted.start).1.2),
                    (counted.replay "0200" counted.start).2)).
  { destruct (counted.replay "0200" counted.start) as [[first second] p2].
    reflexivity. }
  destruct (ExtractUnspents_replay nat (list byte) unit
              (counted.counting sample.NewTxFromHex)
              (counted.counting sample.TxHash)
              (counted.counting sample.ParsePubKey)
              (counted.counting2 sample.FromPublicKey)
              (counted.counting sample.TxIDFromBytes)
              (counted.counting sample.CommitmentFromBytes)
              (counted.counting2 sample.UnblindOutput)
              sample.NewTxFromHex sample.TxHash sample.ParsePubKey
              sample.FromPublicKey sample.TxIDFromBytes
              sample.CommitmentFromBytes sample.UnblindOutput tt
              (fun a w => eq_refl) (fun a w => eq_refl) (fun a w => eq_refl)
              (fun a b w => eq_refl) (fun a w => eq_refl)
              (fun a w => eq_refl) (fun a b w => eq_refl)
              "0200" counted.start _ _ _ Hrun)
    as (Hsame & Hfirst & Hmap).
  split; [exact Hsame|]. split; [exact Hfirst|]. split; [exact Hmap|].
  split; [vm_compute; reflexivity|reflexivity].
Defined.
